(** * The trivia cog of progphil-bot: daily dispatch gate, schedule
      normaliser and command surface

    A shallow embedding of [src/bot/cogs/trivia.py].  Python strings are
    modelled as [string] (sequences of code points below 256, where the
    regular-expression class [\d] coincides with [[0-9]]), Python integers
    as [Z], the cog's attributes as a record, and the body of the
    coroutines in a small state-and-exception monad that also records the
    calls made to the external collaborators (content API, channel). *)

From Stdlib Require Import ZArith List String Ascii Bool Lia.
From Stdlib Require Import DecimalString.
Import ListNotations.
Open Scope string_scope.
Open Scope Z_scope.

(** ** Regular expressions: the fragment of Python's [re] the module uses *)

Module Re.

(** Pattern syntax.  [Cls lo hi] is the class [[lo-hi]], [Opt] the greedy
    [?], [Bol] and [Eol] the anchors [^] and [$] (no MULTILINE flag),
    [Group] a capturing group. *)
Inductive regex : Type :=
| Chr (c : ascii)
| Cls (lo hi : ascii)
| Seq (r1 r2 : regex)
| Alt (r1 r2 : regex)
| Opt (r : regex)
| Bol
| Eol
| Group (name : string) (r : regex).

(** A matcher position: index into the subject, the text still to be
    read, and the groups captured so far (most recent first). *)
Record mstate : Type := mk_mstate
  { pos : nat; rest : string; caps : list (string * string) }.

Definition in_class (lo hi c : ascii) : bool :=
  ((nat_of_ascii lo <=? nat_of_ascii c) && (nat_of_ascii c <=? nat_of_ascii hi))%nat.

(** [$] without MULTILINE: at the end of the subject, or just before a
    line feed that is its last character. *)
Definition newline : ascii := ascii_of_nat 10.

Definition at_end (s : string) : bool :=
  match s with
  | EmptyString => true
  | String c EmptyString => Ascii.eqb c newline
  | _ => false
  end.

(** Backtracking matcher in continuation-passing style: alternatives are
    tried left to right, [?] tries its operand first, and the first
    position accepted by the continuation wins, as in [re]. *)
Fixpoint rmatch {A : Type} (r : regex) (st : mstate) (k : mstate -> option A) : option A :=
  match r with
  | Chr c =>
      match rest st with
      | String c' s' =>
          if Ascii.eqb c c' then k (mk_mstate (S (pos st)) s' (caps st)) else None
      | EmptyString => None
      end
  | Cls lo hi =>
      match rest st with
      | String c' s' =>
          if in_class lo hi c' then k (mk_mstate (S (pos st)) s' (caps st)) else None
      | EmptyString => None
      end
  | Seq r1 r2 => rmatch r1 st (fun st1 => rmatch r2 st1 k)
  | Alt r1 r2 =>
      match rmatch r1 st k with
      | Some a => Some a
      | None => rmatch r2 st k
      end
  | Opt r1 =>
      match rmatch r1 st k with
      | Some a => Some a
      | None => k st
      end
  | Bol => if Nat.eqb (pos st) 0 then k st else None
  | Eol => if at_end (rest st) then k st else None
  | Group name r1 =>
      rmatch r1 st (fun st1 =>
        k (mk_mstate (pos st1) (rest st1)
             ((name, substring 0 (pos st1 - pos st) (rest st)) :: caps st1)))
  end.

(** [re.match(pattern, subject)]: a match anchored at index 0; the result
    is the final matcher position (end index and groups) or [None]. *)
Definition re_match (r : regex) (subject : string) : option mstate :=
  rmatch r (mk_mstate 0 subject []) (fun st => Some st).

(** [m.end()] and [m[name]] of a match object. *)
Definition match_end (m : mstate) : nat := pos m.

Fixpoint group (name : string) (cs : list (string * string)) : option string :=
  match cs with
  | [] => None
  | (n, v) :: cs' => if String.eqb n name then Some v else group name cs'
  end.

(** Declarative reading of a pattern: [sem r st st'] when [r] can take
    the matcher from [st] to [st']. *)
Inductive sem : regex -> mstate -> mstate -> Prop :=
| sem_chr c i s cs :
    sem (Chr c) (mk_mstate i (String c s) cs) (mk_mstate (S i) s cs)
| sem_cls lo hi c i s cs :
    in_class lo hi c = true ->
    sem (Cls lo hi) (mk_mstate i (String c s) cs) (mk_mstate (S i) s cs)
| sem_seq r1 r2 st st1 st2 :
    sem r1 st st1 -> sem r2 st1 st2 -> sem (Seq r1 r2) st st2
| sem_alt_l r1 r2 st st' : sem r1 st st' -> sem (Alt r1 r2) st st'
| sem_alt_r r1 r2 st st' : sem r2 st st' -> sem (Alt r1 r2) st st'
| sem_opt_some r st st' : sem r st st' -> sem (Opt r) st st'
| sem_opt_none r st : sem (Opt r) st st
| sem_bol st : pos st = 0%nat -> sem Bol st st
| sem_eol st : at_end (rest st) = true -> sem Eol st st
| sem_group name r st st1 :
    sem r st st1 ->
    sem (Group name r) st
        (mk_mstate (pos st1) (rest st1)
           ((name, substring 0 (pos st1 - pos st) (rest st)) :: caps st1)).

End Re.

(** ** Python values the module handles *)

(** The exceptions that can leave the coroutines.  [ExtError] stands for an
    exception raised by a collaborator (HTTP transport, channel delivery),
    named by its class. *)
Inductive exn : Type :=
| ValueError
| OverflowError
| AttributeError
| IndexError
| KeyError
| TypeError
| ExtError (name : string).

Inductive result (A : Type) : Type :=
| Ok (a : A)
| Raise (e : exn).

Arguments Ok {A} a.
Arguments Raise {A} e.

(** What an expression compared with [is None] can evaluate to here. *)
Inductive pyobj : Type :=
| PyNone
| PyBool (b : bool).

Definition py_is_None (v : pyobj) : bool :=
  match v with
  | PyNone => true
  | PyBool _ => false
  end.

(** [int(text)] for the digit strings the patterns below capture. *)
Fixpoint digits_value (acc : Z) (s : string) : option Z :=
  match s with
  | EmptyString => Some acc
  | String c s' =>
      if Re.in_class "0" "9" c
      then digits_value (10 * acc + (Z.of_nat (nat_of_ascii c) - 48)) s'
      else None
  end.

Definition py_int (s : string) : result Z :=
  match s with
  | EmptyString => Raise ValueError
  | _ => match digits_value 0 s with
         | Some z => Ok z
         | None => Raise ValueError
         end
  end.

(** [str(n)] for an integer, as an f-string renders it. *)
Definition py_str_int (n : Z) : string := NilZero.string_of_int (Z.to_int n).

(** ** [datetime]: [time], [timedelta], [datetime] *)

Record time : Type := mk_time
  { hour : Z; minute : Z; second : Z; microsecond : Z }.

(** A calendar date, by its proleptic Gregorian ordinal
    ([date.toordinal()]; day 1 is 0001-01-01). *)
Definition date : Type := Z.

Definition MAXORDINAL : Z := 3652059.

Record datetime : Type := mk_datetime
  { dt_date : date; dt_time : time }.

Record timedelta : Type := mk_timedelta
  { td_days : Z; td_seconds : Z; td_microseconds : Z }.

(** Comparison of naive times: lexicographic on
    (hour, minute, second, microsecond). *)
Definition time_cmp (a b : time) : comparison :=
  match hour a ?= hour b with
  | Eq => match minute a ?= minute b with
          | Eq => match second a ?= second b with
                  | Eq => microsecond a ?= microsecond b
                  | c => c
                  end
          | c => c
          end
  | c => c
  end.

Definition time_ge (a b : time) : bool :=
  match time_cmp a b with
  | Lt => false
  | _ => true
  end.

(** [timedelta(days, hours=, minutes=, seconds=, microseconds=)] on
    integers: the fields are carried into the normal form
    0 <= seconds < 86400, 0 <= microseconds < 10^6. *)
Definition timedelta_new (days hours minutes seconds microseconds : Z) : timedelta :=
  let s := hours * 3600 + minutes * 60 + seconds + microseconds / 1000000 in
  mk_timedelta (days + s / 86400) (s mod 86400) (microseconds mod 1000000).

Definition timedelta_neg (d : timedelta) : timedelta :=
  timedelta_new (- td_days d) 0 0 (- td_seconds d) (- td_microseconds d).

Definition timedelta_add (a b : timedelta) : timedelta :=
  timedelta_new (td_days a + td_days b) 0 0
    (td_seconds a + td_seconds b) (td_microseconds a + td_microseconds b).

(** [datetime.combine(d, t)]; when [d] is a [datetime] only its date is
    used. *)
Definition datetime_combine (d : datetime) (t : time) : datetime :=
  mk_datetime (dt_date d) t.

(** [datetime + timedelta], raising [OverflowError] when the day leaves
    the range of [date]. *)
Definition datetime_add (dt : datetime) (other : timedelta) : result datetime :=
  let t := dt_time dt in
  let delta :=
    timedelta_add
      (timedelta_new (dt_date dt) (hour t) (minute t) (second t) (microsecond t))
      other in
  let h := td_seconds delta / 3600 in
  let rem := td_seconds delta mod 3600 in
  let mi := rem / 60 in
  let sec := rem mod 60 in
  if (0 <? td_days delta) && (td_days delta <=? MAXORDINAL)
  then Ok (mk_datetime (td_days delta) (mk_time h mi sec (td_microseconds delta)))
  else Raise OverflowError.

(** [datetime - timedelta] is [datetime + (-timedelta)]. *)
Definition datetime_sub (dt : datetime) (other : timedelta) : result datetime :=
  datetime_add dt (timedelta_neg other).

(** ** [datetime.strptime(text, "%H:%M")] *)

(** The pattern [_strptime] compiles the format into:
    [(?P<H>2[0-3]|[0-1]\d|\d):(?P<M>[0-5]\d|\d)].  Over the code points
    below 256 the decimal digits, which [\d] matches and [int] reads, are
    exactly [0-9]; the digits of other scripts, which [\d] and [int]
    accept too, lie outside the strings modelled here. *)
Definition Digit : Re.regex := Re.Cls "0" "9".

Definition strptime_regex : Re.regex :=
  Re.Seq
    (Re.Group "H"
       (Re.Alt (Re.Seq (Re.Chr "2") (Re.Cls "0" "3"))
          (Re.Alt (Re.Seq (Re.Cls "0" "1") Digit) Digit)))
    (Re.Seq (Re.Chr ":")
       (Re.Group "M" (Re.Alt (Re.Seq (Re.Cls "0" "5") Digit) Digit))).

(** 1900-01-01, the date [strptime] fills in when the format has none. *)
Definition strptime_default_date : date := 693596.

Definition strptime (text : string) : result datetime :=
  match Re.re_match strptime_regex text with
  | None => Raise ValueError
  | Some found =>
      if negb (Nat.eqb (String.length text) (Re.match_end found))
      then Raise ValueError
      else
        match Re.group "H" (Re.caps found), Re.group "M" (Re.caps found) with
        | Some hs, Some ms =>
            match py_int hs, py_int ms with
            | Ok h, Ok mi => Ok (mk_datetime strptime_default_date (mk_time h mi 0 0))
            | Raise e, _ => Raise e
            | _, Raise e => Raise e
            end
        | _, _ => Raise KeyError
        end
  end.

(** ** The collaborators *)

Module TriviaDB.

(** The config row: the mapping with keys ["channel_id"] and
    ["schedule"] that [get_config] returns. *)
Record row : Type := mk_row
  { channel_id : Z; schedule : string }.

(** Modelled from the spec: [database/trivia.py] (class [TriviaDB]) is not
    among the sources.  The Config Store persists the two fields
    [channel_id] and [schedule], holds at most one row, and supports
    insert (once), read and update. *)
Definition store : Type := option row.

Definition get_config (d : store) : option row := d.

Definition insert (ch : Z) (sch : string) (d : store) : store :=
  match d with
  | None => Some (mk_row ch sch)
  | Some r => Some r
  end.

Definition update (ch : Z) (sch : string) (d : store) : store :=
  match d with
  | None => None
  | Some _ => Some (mk_row ch sch)
  end.

End TriviaDB.

(** A decoded JSON document, and the two subscripts the loop applies to
    it. *)
#[warnings="-register-all"]
Inductive json : Type :=
| JNull
| JBool (b : bool)
| JNum (n : Z)
| JStr (s : string)
| JArr (items : list json)
| JObj (fields : list (string * json)).

Fixpoint assoc (key : string) (fields : list (string * json)) : option json :=
  match fields with
  | [] => None
  | (k, v) :: fields' => if String.eqb k key then Some v else assoc key fields'
  end.

(** [value[0]] *)
Definition getitem_0 (value : json) : result json :=
  match value with
  | JArr [] => Raise IndexError
  | JArr (x :: _) => Ok x
  | JStr EmptyString => Raise IndexError
  | JStr (String c _) => Ok (JStr (String c EmptyString))
  | JObj _ => Raise KeyError
  | _ => Raise TypeError
  end.

(** [value[key]] for a string key *)
Definition getitem_str (value : json) (key : string) : result json :=
  match value with
  | JObj fields =>
      match assoc key fields with
      | Some v => Ok v
      | None => Raise KeyError
      end
  | _ => Raise TypeError
  end.

(** What [requests.get] returns: the status code and the body, [None]
    when the body is not JSON ([response.json()] then raises). *)
Record response : Type := mk_response
  { status_code : Z; body : option json }.

Definition response_json (r : response) : result json :=
  match body r with
  | Some j => Ok j
  | None => Raise (ExtError "JSONDecodeError")
  end.

Record Embed : Type := mk_Embed
  { title : string; description : json; color : string; image : string }.

Inductive message : Type :=
| Content (text : string)
| WithEmbed (embed : Embed).

(** A channel object, identified by its id. *)
Definition channel_t : Type := Z.

(** Calls that reach a collaborator, in the order they are made. *)
Inductive event : Type :=
| HttpGet (url : string)
| ChannelSend (ch : channel_t) (m : message)
| Respond (text : string).

(** What one run of a coroutine observes of the outside: the two clocks,
    the channel cache, the content API and the delivery of a message.
    The clocks are read once per run: the simulated clock advances
    between ticks, not within one. *)
Record env : Type := mk_env
  { today : datetime;                         (* datetime.today() *)
    utcnow : datetime;                        (* datetime.utcnow() *)
    get_channel : Z -> option channel_t;      (* bot.get_channel *)
    requests_get : result response;           (* requests.get(...) *)
    channel_send : message -> option exn }.   (* None: delivered *)

(** ** The cog *)

Module Trivia.

(** The attributes of the cog ([self.bot] and the handle [self.db] apart:
    [database] is the store behind [self.db]). *)
Record cog : Type := mk_cog
  { sent_today : bool;
    sent_date : option date;
    config : option TriviaDB.row;
    database : TriviaDB.store }.

(** [__init__] *)
Definition init (d : TriviaDB.store) : cog := mk_cog false None None d.

(** [cog_load] (starting the loop apart) *)
Definition cog_load (self : cog) : cog :=
  mk_cog (sent_today self) (sent_date self)
    (TriviaDB.get_config (database self)) (database self).

(** *** Coroutine bodies: state, trace and exceptions *)

Record world : Type := mk_world
  { self : cog; trace : list event }.

Definition M (A : Type) : Type := world -> result A * world.

Definition ret {A : Type} (a : A) : M A := fun w => (Ok a, w).

Definition bind {A B : Type} (m : M A) (f : A -> M B) : M B :=
  fun w =>
    match m w with
    | (Ok a, w') => f a w'
    | (Raise e, w') => (Raise e, w')
    end.

Definition raise {A : Type} (e : exn) : M A := fun w => (Raise e, w).

Definition lift {A : Type} (r : result A) : M A :=
  match r with
  | Ok a => ret a
  | Raise e => raise e
  end.

Definition gets {A : Type} (f : cog -> A) : M A := fun w => (Ok (f (self w)), w).

Definition modify (f : cog -> cog) : M unit :=
  fun w => (Ok tt, mk_world (f (self w)) (trace w)).

Definition emit (e : event) : M unit :=
  fun w => (Ok tt, mk_world (self w) (trace w ++ [e])).

Notation "x <- m ;; k" := (bind m (fun x => k))
  (at level 61, m at next level, right associativity).
Notation "m ;; k" := (bind m (fun _ => k))
  (at level 61, right associativity).

Definition set_sent_today (b : bool) (c : cog) : cog :=
  mk_cog b (sent_date c) (config c) (database c).

Definition set_sent_date (d : option date) (c : cog) : cog :=
  mk_cog (sent_today c) d (config c) (database c).

Definition set_config (r : option TriviaDB.row) (c : cog) : cog :=
  mk_cog (sent_today c) (sent_date c) r (database c).

Definition set_database (d : TriviaDB.store) (c : cog) : cog :=
  mk_cog (sent_today c) (sent_date c) (config c) d.

(** [_check_time]: the pattern is [^([01]?[0-9]|2[0-3]):[0-5][0-9]$]. *)
Definition pattern : Re.regex :=
  Re.Seq Re.Bol
    (Re.Seq
       (Re.Group "1"
          (Re.Alt (Re.Seq (Re.Opt (Re.Cls "0" "1")) (Re.Cls "0" "9"))
             (Re.Seq (Re.Chr "2") (Re.Cls "0" "3"))))
       (Re.Seq (Re.Chr ":")
          (Re.Seq (Re.Cls "0" "5") (Re.Seq (Re.Cls "0" "9") Re.Eol)))).

Definition _check_time (time_string : string) : bool :=
  match Re.re_match pattern time_string with
  | Some _ => true
  | None => false
  end.

(** [_get_schedule]: [now] is the value [datetime.today()] returns at the
    call. *)
Definition _get_schedule (cfg : option TriviaDB.row) (now : datetime) : result time :=
  match cfg with
  | None => Ok (mk_time 0 0 0 0)
  | Some c =>
      match strptime (TriviaDB.schedule c) with
      | Raise e => Raise e
      | Ok parsed =>
          let schedule_utc_plus_8 := dt_time parsed in
          let schedule_with_day := datetime_combine now schedule_utc_plus_8 in
          match datetime_sub schedule_with_day (timedelta_new 0 8 0 0 0) with
          | Raise e => Raise e
          | Ok sched => Ok (dt_time sched)
          end
      end
  end.

(** [d != self.sent_date], where [sent_date] may be [None]. *)
Definition date_ne (d : date) (sd : option date) : bool :=
  match sd with
  | None => true
  | Some d' => negb (d =? d')
  end.

(** [await trivia_channel.send(...)]: on [None] the attribute lookup
    fails; otherwise the message is handed to the channel, which may
    raise. *)
Definition send (e : env) (ch : option channel_t) (m : message) : M unit :=
  match ch with
  | None => raise AttributeError
  | Some c =>
      emit (ChannelSend c m) ;;
      match channel_send e m with
      | None => ret tt
      | Some err => raise err
      end
  end.

Definition api_url : string := "https://api.api-ninjas.com/v1/facts".

Definition error_text (code : Z) : string :=
  ("An error occurred while fetching trivia. Error code: " ++ py_str_int code)%string.

Definition trivia_embed (fact : json) : Embed :=
  mk_Embed "Prof. Progphil Trivia of the Day" fact "blurple"
    "https://cdn.discordapp.com/attachments/972510204505763951/1076388478088122368/image-12.png".

(** Lines 76-78 of [trivia_loop]: the day-rollover reset. *)
Definition rollover_reset (e : env) : M unit :=
  sd <- gets sent_date ;;
  if date_ne (dt_date (today e)) sd
  then modify (set_sent_today false)
  else ret tt.

(** Lines 88-118: the send sequence.  The id is stored as an integer, on
    which [int(...)] is the identity. *)
Definition send_sequence (e : env) (c : TriviaDB.row) : M unit :=
  let trivia_channel := get_channel e (TriviaDB.channel_id c) in
  emit (HttpGet api_url) ;;
  resp <- lift (requests_get e) ;;
  if negb (status_code resp =? 200)
  then send e trivia_channel (Content (error_text (status_code resp)))
  else
    response_json <- lift (response_json resp) ;;
    first <- lift (getitem_0 response_json) ;;
    fact <- lift (getitem_str first "fact") ;;
    send e trivia_channel (WithEmbed (trivia_embed fact)) ;;
    modify (set_sent_today true) ;;
    modify (set_sent_date (Some (dt_date (today e)))).

(** Lines 80-118: the fire-time comparison, the sent check and the send
    sequence. *)
Definition dispatch (e : env) (c : TriviaDB.row) : M unit :=
  sched <- lift (_get_schedule (Some c) (today e)) ;;
  if negb (time_ge (dt_time (utcnow e)) sched)
  then ret tt
  else
    sent <- gets sent_today ;;
    if sent then ret tt else send_sequence e c.

(** [trivia_loop]: one tick. *)
Definition trivia_loop (e : env) : M unit :=
  cfg <- gets config ;;
  match cfg with
  | None => ret tt
  | Some c => rollover_reset e ;; dispatch e c
  end.

(** *** Commands *)

Definition setup_first : string := "Please setup the trivia first, use /trivia setup.".
Definition correct_time : string := "Please enter a correct time. 00:00 to 23:59".
Definition already_setup : string :=
  "Trivia is already setup, use /trivia channel and /trivia schedule to change the channel and schedule.".

Definition db_update (ch : Z) (sch : string) : M unit :=
  modify (fun c => set_database (TriviaDB.update ch sch (database c)) c).

Definition db_insert (ch : Z) (sch : string) : M unit :=
  modify (fun c => set_database (TriviaDB.insert ch sch (database c)) c).

Definition reload_config : M unit :=
  modify (fun c => set_config (TriviaDB.get_config (database c)) c).

(** [/trivia schedule] *)
Definition schedule (sch : string) : M unit :=
  cfg <- gets config ;;
  match cfg with
  | None => emit (Respond setup_first)
  | Some c =>
      if py_is_None (PyBool (_check_time sch))
      then emit (Respond correct_time)
      else
        db_update (TriviaDB.channel_id c) sch ;;
        reload_config ;;
        emit (Respond ("Trivia session scheduled at " ++ sch)%string)
  end.

(** [/trivia channel] *)
Definition channel (ch : channel_t) : M unit :=
  cfg <- gets config ;;
  match cfg with
  | None => emit (Respond setup_first)
  | Some c =>
      db_update ch (TriviaDB.schedule c) ;;
      reload_config ;;
      emit (Respond "Trivia channel set")
  end.

(** [/trivia setup] *)
Definition setup (ch : channel_t) (sch : string) : M unit :=
  cfg <- gets config ;;
  match cfg with
  | Some _ => emit (Respond already_setup)
  | None =>
      if py_is_None (PyBool (_check_time sch))
      then emit (Respond correct_time)
      else
        db_insert ch sch ;;
        reload_config ;;
        emit (Respond "Trivia setup")
  end.

(** *** The timer task *)

(** The loop runs one tick to completion before the next; the ticks are
    given by what each observes.  The run ends at the first tick that
    lets an exception out. *)
Fixpoint run (ticks : list env) : M unit :=
  match ticks with
  | [] => ret tt
  | e :: ticks' => trivia_loop e ;; run ticks'
  end.

End Trivia.

(** ** Schedule texts and a simulated clock *)

(** The decimal digit [d] as a character, and [HH:MM] for an hour and a
    minute: the texts the data model calls a schedule. *)
Definition digit_char (d : Z) : ascii := ascii_of_nat (Z.to_nat (d + 48)).

Definition two_digits (n : Z) : string :=
  String (digit_char (n / 10)) (String (digit_char (n mod 10)) EmptyString).

Definition one_digit (n : Z) : string := String (digit_char n) EmptyString.

Definition hhmm (h m : Z) : string :=
  (two_digits h ++ ":" ++ two_digits m)%string.

Definition hmm (h m : Z) : string :=
  (one_digit h ++ ":" ++ two_digits m)%string.

(** [HH:MM] in 24-hour format, hours 00-23, minutes 00-59. *)
Definition is_HHMM (s : string) : Prop :=
  exists h m, 0 <= h <= 23 /\ 0 <= m <= 59 /\ s = hhmm h m.

(** The same with the hour written with one digit, as in [1:24]. *)
Definition is_HMM (s : string) : Prop :=
  exists h m, 0 <= h <= 9 /\ 0 <= m <= 59 /\ s = hmm h m.

Fixpoint ends_with_newline (s : string) : bool :=
  match s with
  | EmptyString => false
  | String c EmptyString => Ascii.eqb c Re.newline
  | String _ s' => ends_with_newline s'
  end.

(** The instant [m] minutes after 1970-01-01T00:00 as a [datetime]. *)
Definition epoch_ordinal : date := 719163.

Definition datetime_of_minutes (m : Z) : datetime :=
  mk_datetime (epoch_ordinal + m / 1440)
    (mk_time ((m mod 1440) / 60) (m mod 60) 0 0).

(** What a tick observes at minute [m] (UTC) on a host whose local time
    is [tz] minutes ahead of UTC. *)
Definition env_at (tz : Z) (chans : Z -> option channel_t)
    (fetch : result response) (deliver : message -> option exn) (m : Z) : env :=
  mk_env (datetime_of_minutes (m + tz)) (datetime_of_minutes m) chans fetch deliver.

(** The ticks of a clock that starts at minute [start] and advances one
    minute per tick, [n] times. *)
Fixpoint minute_ticks (mk : Z -> env) (start : Z) (n : nat) : list env :=
  match n with
  | O => []
  | S n' => mk start :: minute_ticks mk (start + 1) n'
  end.


Definition is_success_notice (ev : event) : bool :=
  match ev with
  | ChannelSend _ (WithEmbed _) => true
  | _ => false
  end.

Definition count_events (p : event -> bool) (tr : list event) : nat :=
  List.length (filter p tr).

(** A [datetime.today()] the subtraction in [_get_schedule] cannot take
    out of the range of [date]: any day after 0001-01-01. *)
Definition after_min_date (now : datetime) : Prop :=
  1 < dt_date now <= MAXORDINAL.

(** The content API answered 200 with a JSON array whose first element
    has the field ["fact"]. *)
Definition fetch_succeeds (e : env) (fact : json) : Prop :=
  exists others fields,
    requests_get e = Ok (mk_response 200 (Some (JArr (JObj fields :: others))))
    /\ assoc "fact" fields = Some fact.

(** The channel [ch] resolves to a channel that accepts every message. *)
Definition delivers (e : env) (id : Z) (ch : channel_t) : Prop :=
  get_channel e id = Some ch /\ forall m, channel_send e m = None.

(** The gate has not recorded a send for the date tick [e] observes. *)
Definition pending (c : Trivia.cog) (e : env) : Prop :=
  Trivia.sent_today c = false \/ Trivia.sent_date c <> Some (dt_date (today e)).

(** The tick is before, or at or after, the fire time [ft]. *)
Definition before_fire (ft : time) (e : env) : Prop :=
  time_ge (dt_time (utcnow e)) ft = false.

Definition at_or_after_fire (ft : time) (e : env) : Prop :=
  time_ge (dt_time (utcnow e)) ft = true.

(** ** Derived notions used in the statements *)

(** The value of a digit character. *)
Definition digit_of (c : ascii) : Z := Z.of_nat (nat_of_ascii c) - 48.

(** [_check_time] accepts the text of [h:m], with and without a final
    line feed. *)
Definition accepts_hhmm (h m : Z) : bool :=
  Trivia._check_time (hhmm h m)
  && Trivia._check_time (hhmm h m ++ String Re.newline EmptyString).

Definition accepts_hmm (h m : Z) : bool :=
  Trivia._check_time (hmm h m)
  && Trivia._check_time (hmm h m ++ String Re.newline EmptyString).

(** [strptime] reads [s] as hour [h] and minute [m] on 1900-01-01. *)
Definition parses_to (s : string) (h m : Z) : bool :=
  match strptime s with
  | Ok d =>
      (dt_date d =? strptime_default_date)
      && (hour (dt_time d) =? h) && (minute (dt_time d) =? m)
      && (second (dt_time d) =? 0) && (microsecond (dt_time d) =? 0)
  | Raise _ => false
  end.

(** The cog after the day-rollover reset of a tick that observes [e]. *)
Definition after_reset (e : env) (c : Trivia.cog) : Trivia.cog :=
  if Trivia.date_ne (dt_date (today e)) (Trivia.sent_date c)
  then Trivia.set_sent_today false c
  else c.

(** The cog after a recorded send on the date [e] observes. *)
Definition mark_sent (e : env) (c : Trivia.cog) : Trivia.cog :=
  Trivia.set_sent_date (Some (dt_date (today e))) (Trivia.set_sent_today true c).

(** The calls of a send sequence that succeeds, and of one whose fetch
    answers with the status [code]. *)
Definition success_events (ch : channel_t) (fact : json) : list event :=
  [HttpGet Trivia.api_url; ChannelSend ch (WithEmbed (Trivia.trivia_embed fact))].


(** The normalised fire time of the schedule [h:m]. *)
Definition fire_time (h m : Z) : time := mk_time ((h - 8) mod 24) m 0 0.

(** The content API answering with one fact. *)
Definition bees : result response :=
  Ok (mk_response 200 (Some (JArr [JObj [("fact", JStr "Bees can fly.")]]))).


(** Channel caches and a channel that accepts every message. *)
Definition all_channels : Z -> option channel_t := fun id => Some id.

Definition no_channel : Z -> option channel_t := fun _ => None.

Definition accepting : message -> option exn := fun _ => None.

(** A cog loaded from a store that holds channel 1 and schedule [sch]. *)
Definition configured (sch : string) : Trivia.world :=
  Trivia.mk_world (Trivia.cog_load (Trivia.init (Some (TriviaDB.mk_row 1 sch)))) [].

(** 20:00 UTC on day 19000 after the epoch, on a host eight hours ahead
    of UTC: the local date is already the next day. *)
Definition manila_evening : env :=
  env_at 480 all_channels bees accepting (19000 * 1440 + 20 * 60).

(** A cog that recorded a send on day 738000. *)
Definition sent_on_738000 : Trivia.world :=
  Trivia.mk_world
    (Trivia.mk_cog true (Some 738000) (Some (TriviaDB.mk_row 1 "09:00"))
       (Some (TriviaDB.mk_row 1 "09:00"))) [].

(** A tick at minute [m] after the epoch on a host whose zone is UTC. *)
Definition utc_tick (m : Z) : env := env_at 0 all_channels bees accepting m.



(** The fact extracted from a 200 response: [response.json()[0]["fact"]]. *)
Definition payload_fact (resp : response) : result json :=
  match response_json resp with
  | Raise x => Raise x
  | Ok j =>
      match getitem_0 j with
      | Raise x => Raise x
      | Ok first => getitem_str first "fact"
      end
  end.

(** A tick at 01:00 UTC on a host where the configured channel does not
    resolve. *)
Definition channel_gone : env :=
  env_at 0 no_channel bees accepting (19000 * 1440 + 60).

(** [cog_load] leaves the cached config equal to the stored row, and the
    three commands keep it so. *)
Definition coherent (c : Trivia.cog) : Prop := Trivia.config c = Trivia.database c.

(** A cog loaded from an empty store: Config unset. *)
Definition unconfigured : Trivia.world :=
  Trivia.mk_world (Trivia.cog_load (Trivia.init None)) [].

(** ** Schedule texts with a one-digit minute *)

(** [HH:M] and [H:M]: the remaining texts that [strptime] reads with the
    format [%H:%M]. *)
Definition hhm (h m : Z) : string :=
  (two_digits h ++ ":" ++ one_digit m)%string.

Definition hm (h m : Z) : string :=
  (one_digit h ++ ":" ++ one_digit m)%string.

(** The text spells hour [h] and minute [m] with one or two digits each. *)
Definition spells (s : string) (h m : Z) : Prop :=
  s = hhmm h m \/ (h <= 9 /\ s = hmm h m)
  \/ (m <= 9 /\ s = hhm h m) \/ (h <= 9 /\ m <= 9 /\ s = hm h m).

(** A group of the [strptime] pattern holds the text [t], which [int]
    reads as [n]: one digit, or two digits. *)
Definition digits_of (t : string) (n : Z) : Prop :=
  py_int t = Ok n
  /\ ((0 <= n <= 9 /\ t = one_digit n) \/ t = two_digits n).

(** ** Ticks and commands in sequence *)

(** The tick [e], read later in the same minute: the seconds and
    microseconds of [datetime.utcnow()] are [s] and [us]. *)
Definition later_in_minute (s us : Z) (e : env) : env :=
  mk_env (today e)
    (mk_datetime (dt_date (utcnow e))
       (mk_time (hour (dt_time (utcnow e))) (minute (dt_time (utcnow e))) s us))
    (get_channel e) (requests_get e) (channel_send e).

(** A tick at minute [m] after the epoch on a host eight hours ahead of
    UTC. *)
Definition manila_tick (m : Z) : env := env_at 480 all_channels bees accepting m.


(** The three commands that write, with their arguments. *)
Inductive command : Type :=
| Setup (ch : channel_t) (sch : string)
| Schedule (sch : string)
| Channel (ch : channel_t).

Definition exec (c : command) : Trivia.M unit :=
  match c with
  | Setup ch sch => Trivia.setup ch sch
  | Schedule sch => Trivia.schedule sch
  | Channel ch => Trivia.channel ch
  end.

Definition is_setup (c : command) : bool :=
  match c with
  | Setup _ _ => true
  | _ => false
  end.

(** What the cog runs, one coroutine to completion before the next: a
    tick of the loop, or a command. *)
Inductive step : Type :=
| Tick (e : env)
| Command (c : command).

Definition do_step (s : step) : Trivia.M unit :=
  match s with
  | Tick e => Trivia.trivia_loop e
  | Command c => exec c
  end.

(** The steps in order, up to the first that lets an exception out, as
    [Trivia.run] does for ticks alone. *)
Fixpoint steps (l : list step) : Trivia.M unit :=
  match l with
  | [] => Trivia.ret tt
  | s :: l' => Trivia.bind (do_step s) (fun _ => steps l')
  end.

Fixpoint commands_in (l : list step) : list command :=
  match l with
  | [] => []
  | Tick _ :: l' => commands_in l'
  | Command c :: l' => c :: commands_in l'
  end.

Fixpoint ticks_in (l : list step) : list env :=
  match l with
  | [] => []
  | Tick e :: l' => e :: ticks_in l'
  | Command _ :: l' => ticks_in l'
  end.

(** The worlds the cog can be in: loaded from some store, then after any
    tick or command, whether it returned or raised (what a coroutine
    wrote before an exception stays written). *)
Inductive reachable : Trivia.world -> Prop :=
| reach_load (d : TriviaDB.store) :
    reachable (Trivia.mk_world (Trivia.cog_load (Trivia.init d)) [])
| reach_step (s : step) (w : Trivia.world) :
    reachable w -> reachable (snd (do_step s w)).

(** The process starts anew on the same store: [__init__] and [cog_load]
    run again; what was sent stays sent. *)
Definition restart (w : Trivia.world) : Trivia.world :=
  Trivia.mk_world (Trivia.cog_load (Trivia.init (Trivia.database (Trivia.self w))))
    (Trivia.trace w).

(** The gate holds a recorded send for the date [D]. *)
Definition sent_for (D : date) (c : Trivia.cog) : Prop :=
  Trivia.sent_today c = true /\ Trivia.sent_date c = Some D.

(** The cog that recorded a send on day 738000, after the command
    [/trivia schedule abc]. *)
Definition sent_with_abc : Trivia.world :=
  snd (Trivia.schedule "abc" sent_on_738000).

(** * Properties *)

Open Scope list_scope.

(** ** The model on a few inputs *)

Example check_time_0900 : Trivia._check_time "09:00" = true.
Proof. vm_compute. reflexivity. Qed.

Example check_time_2359 : Trivia._check_time "23:59" = true.
Proof. vm_compute. reflexivity. Qed.

Example check_time_2400 : Trivia._check_time "24:00" = false.
Proof. vm_compute. reflexivity. Qed.

Example check_time_9_5 : Trivia._check_time "9:5" = false.
Proof. vm_compute. reflexivity. Qed.

Example check_time_abc : Trivia._check_time "abc" = false.
Proof. vm_compute. reflexivity. Qed.

Example strptime_9_5 :
  strptime "9:5" = Ok (mk_datetime strptime_default_date (mk_time 9 5 0 0)).
Proof. vm_compute. reflexivity. Qed.

Example strptime_trailing : strptime "09:000" = Raise ValueError.
Proof. vm_compute. reflexivity. Qed.

Example get_schedule_unset :
  Trivia._get_schedule None (mk_datetime 738000 (mk_time 3 4 5 6)) = Ok (mk_time 0 0 0 0).
Proof. reflexivity. Qed.

Example get_schedule_0900 :
  Trivia._get_schedule (Some (TriviaDB.mk_row 1 "09:00"))
    (mk_datetime 738000 (mk_time 3 4 5 6))
  = Ok (mk_time 1 0 0 0).
Proof. vm_compute. reflexivity. Qed.

Example get_schedule_0730 :
  Trivia._get_schedule (Some (TriviaDB.mk_row 1 "07:30"))
    (mk_datetime 738000 (mk_time 3 4 5 6))
  = Ok (mk_time 23 30 0 0).
Proof. vm_compute. reflexivity. Qed.

Example get_schedule_first_day :
  Trivia._get_schedule (Some (TriviaDB.mk_row 1 "07:30"))
    (mk_datetime 1 (mk_time 3 4 5 6))
  = Raise OverflowError.
Proof. vm_compute. reflexivity. Qed.

Example error_text_500 :
  Trivia.error_text 500 = "An error occurred while fetching trivia. Error code: 500".
Proof. vm_compute. reflexivity. Qed.

Example tick_unset_config :
  Trivia.trivia_loop (utc_tick (19000 * 1440 + 60)) unconfigured = (Ok tt, unconfigured).
Proof. vm_compute. reflexivity. Qed.

(** ** The matcher finds a match exactly when the pattern has one *)

Lemma rmatch_sem (A : Type) (r : Re.regex) :
  forall (st : Re.mstate) (k : Re.mstate -> option A),
    Re.rmatch r st k <> None <->
    exists st', Re.sem r st st' /\ k st' <> None.
Proof.
  induction r as [c | lo hi | r1 IH1 r2 IH2 | r1 IH1 r2 IH2 | r1 IH1 | | | name r1 IH1];
    intros [i s cs] k; simpl.
  - destruct s as [| c' s'].
    + split; [congruence | intros (st' & H & _); inversion H].
    + destruct (Ascii.eqb c c') eqn:E.
      * apply Ascii.eqb_eq in E; subst c'. split.
        -- intros H. eexists; split; [constructor | exact H].
        -- intros (st' & H & Hk). inversion H; subst. exact Hk.
      * split; [congruence |].
        intros (st' & H & _). inversion H; subst.
        rewrite Ascii.eqb_refl in E. discriminate.
  - destruct s as [| c' s'].
    + split; [congruence | intros (st' & H & _); inversion H].
    + destruct (Re.in_class lo hi c') eqn:E.
      * split.
        -- intros H. eexists; split; [constructor; exact E | exact H].
        -- intros (st' & H & Hk). inversion H; subst. exact Hk.
      * split; [congruence |].
        intros (st' & H & _). inversion H; subst. congruence.
  - rewrite IH1. split.
    + intros (st1 & H1 & H2). apply IH2 in H2. destruct H2 as (st2 & H2 & Hk).
      exists st2. split; [econstructor; eassumption | exact Hk].
    + intros (st2 & H & Hk). inversion H; subst.
      eexists. split; [eassumption |]. apply IH2. eauto.
  - destruct (Re.rmatch r1 _ k) eqn:E1.
    + split; [intros _ | congruence].
      assert (H : Re.rmatch r1 (Re.mk_mstate i s cs) k <> None) by congruence.
      apply IH1 in H. destruct H as (st' & H & Hk).
      exists st'. split; [apply Re.sem_alt_l; exact H | exact Hk].
    + rewrite IH2. split.
      * intros (st' & H & Hk). exists st'. split; [apply Re.sem_alt_r; exact H | exact Hk].
      * intros (st' & H & Hk). inversion H; subst.
        -- exfalso. assert (Hn : Re.rmatch r1 (Re.mk_mstate i s cs) k <> None)
             by (apply IH1; eauto). congruence.
        -- eauto.
  - destruct (Re.rmatch r1 _ k) eqn:E1.
    + split; [intros _ | congruence].
      assert (H : Re.rmatch r1 (Re.mk_mstate i s cs) k <> None) by congruence.
      apply IH1 in H. destruct H as (st' & H & Hk).
      exists st'. split; [apply Re.sem_opt_some; exact H | exact Hk].
    + split.
      * intros Hk. eexists. split; [apply Re.sem_opt_none | exact Hk].
      * intros (st' & H & Hk). inversion H; subst.
        -- exfalso. assert (Hn : Re.rmatch r1 (Re.mk_mstate i s cs) k <> None)
             by (apply IH1; eauto). congruence.
        -- exact Hk.
  - destruct (Nat.eqb i 0) eqn:E.
    + apply Nat.eqb_eq in E. split.
      * intros Hk. eexists. split; [apply Re.sem_bol; exact E | exact Hk].
      * intros (st' & H & Hk). inversion H; subst. exact Hk.
    + split; [congruence |].
      intros (st' & H & _). inversion H; subst. simpl in *.
      apply Nat.eqb_neq in E. contradiction.
  - destruct (Re.at_end s) eqn:E.
    + split.
      * intros Hk. eexists. split; [apply Re.sem_eol; exact E | exact Hk].
      * intros (st' & H & Hk). inversion H; subst. exact Hk.
    + split; [congruence |].
      intros (st' & H & _). inversion H; subst. simpl in *. congruence.
  - rewrite IH1. split.
    + intros (st1 & H & Hk). eexists. split; [apply Re.sem_group; exact H | exact Hk].
    + intros (st' & H & Hk). inversion H; subst. eauto.
Qed.

Lemma check_time_sem (s : string) :
  Trivia._check_time s = true <->
  exists st', Re.sem Trivia.pattern (Re.mk_mstate 0 s []) st'.
Proof.
  unfold Trivia._check_time, Re.re_match.
  pose proof (rmatch_sem _ Trivia.pattern (Re.mk_mstate 0 s []) (fun st => Some st)) as H.
  destruct (Re.rmatch Trivia.pattern _ _) eqn:E.
  - split; [intros _ | reflexivity].
    destruct H as [H _]. destruct H as (st' & Hs & _); [congruence | eauto].
  - split; [discriminate |].
    intros (st' & Hs). destruct H as [_ H].
    exfalso. apply H; [| reflexivity]. exists st'. split; [exact Hs | discriminate].
Qed.

(** ** Characters, digits and schedule texts *)

Lemma in_class_bounds (lo hi c : ascii) :
  Re.in_class lo hi c = true <->
  (nat_of_ascii lo <= nat_of_ascii c <= nat_of_ascii hi)%nat.
Proof.
  unfold Re.in_class. rewrite andb_true_iff, !Nat.leb_le. tauto.
Qed.

Lemma digit_char_of (c : ascii) :
  (48 <= nat_of_ascii c)%nat -> digit_char (digit_of c) = c.
Proof.
  intros H. unfold digit_char, digit_of.
  replace (Z.to_nat (Z.of_nat (nat_of_ascii c) - 48 + 48)) with (nat_of_ascii c) by lia.
  apply ascii_nat_embedding.
Qed.

Lemma two_digits_pair (a b : Z) :
  0 <= b <= 9 ->
  two_digits (10 * a + b) = String (digit_char a) (String (digit_char b) EmptyString).
Proof.
  intros Hb. unfold two_digits.
  replace ((10 * a + b) / 10) with a by (Z.div_mod_to_equations; lia).
  replace ((10 * a + b) mod 10) with b by (Z.div_mod_to_equations; lia).
  reflexivity.
Qed.

Lemma two_digits_low (b : Z) :
  0 <= b <= 9 ->
  two_digits b = String "0" (String (digit_char b) EmptyString).
Proof.
  intros Hb. replace b with (10 * 0 + b) at 1 by lia.
  rewrite two_digits_pair by exact Hb. reflexivity.
Qed.

Lemma forallb_below (P : Z -> bool) (n : nat) :
  forallb P (map Z.of_nat (seq 0 n)) = true ->
  forall z, 0 <= z < Z.of_nat n -> P z = true.
Proof.
  intros H z Hz. rewrite forallb_forall in H. apply H.
  apply in_map_iff. exists (Z.to_nat z). split; [lia |].
  apply in_seq. lia.
Qed.

Lemma at_end_cases (s : string) :
  Re.at_end s = true <-> s = EmptyString \/ s = String Re.newline EmptyString.
Proof.
  destruct s as [| c [| c' s']]; simpl.
  - tauto.
  - rewrite Ascii.eqb_eq. split.
    + intros ->. now right.
    + intros [H | H]; [discriminate | now inversion H].
  - split; [discriminate | intros [H | H]; discriminate].
Qed.

Ltac class_bounds :=
  repeat match goal with
         | H : Re.in_class _ _ _ = true |- _ =>
             apply in_class_bounds in H; cbn in H
         end.

Ltac invert_sem :=
  repeat match goal with
         | H : Re.sem (Re.Seq _ _) _ _ |- _ => inversion H; clear H; subst
         | H : Re.sem (Re.Group _ _) _ _ |- _ => inversion H; clear H; subst
         | H : Re.sem (Re.Alt _ _) _ _ |- _ => inversion H; clear H; subst
         | H : Re.sem (Re.Opt _) _ _ |- _ => inversion H; clear H; subst
         | H : Re.sem (Re.Cls _ _) _ _ |- _ => inversion H; clear H; subst
         | H : Re.sem (Re.Chr _) _ _ |- _ => inversion H; clear H; subst
         | H : Re.sem Re.Bol _ _ |- _ => inversion H; clear H; subst
         | H : Re.sem Re.Eol _ _ |- _ => inversion H; clear H; subst
         end;
  simpl in *; subst;
  repeat match goal with
         | H : Re.mk_mstate _ _ _ = Re.mk_mstate _ _ _ |- _ =>
             inversion H; clear H; subst
         end;
  simpl in *.

Lemma hhmm_of_chars (c1 c2 c3 c4 : ascii) (tail : string) :
  (48 <= nat_of_ascii c1 <= 57)%nat -> (48 <= nat_of_ascii c2 <= 57)%nat ->
  (48 <= nat_of_ascii c3 <= 57)%nat -> (48 <= nat_of_ascii c4 <= 57)%nat ->
  String c1 (String c2 (String ":" (String c3 (String c4 tail)))) =
  (hhmm (10 * digit_of c1 + digit_of c2) (10 * digit_of c3 + digit_of c4) ++ tail)%string.
Proof.
  intros H1 H2 H3 H4. unfold hhmm.
  rewrite !two_digits_pair by (unfold digit_of; lia).
  rewrite !digit_char_of by lia. reflexivity.
Qed.

Lemma hmm_of_chars (c1 c3 c4 : ascii) (tail : string) :
  (48 <= nat_of_ascii c1 <= 57)%nat ->
  (48 <= nat_of_ascii c3 <= 57)%nat -> (48 <= nat_of_ascii c4 <= 57)%nat ->
  String c1 (String ":" (String c3 (String c4 tail))) =
  (hmm (digit_of c1) (10 * digit_of c3 + digit_of c4) ++ tail)%string.
Proof.
  intros H1 H3 H4. unfold hmm, one_digit.
  rewrite !two_digits_pair by (unfold digit_of; lia).
  rewrite !digit_char_of by lia. reflexivity.
Qed.

(** Every text [_check_time] accepts is an hour 0-23 written with one or
    two digits, a colon and a two-digit minute 00-59, followed by nothing
    or by one line feed. *)
Lemma check_time_inv (s : string) :
  Trivia._check_time s = true ->
  exists h m tail,
    0 <= h <= 23 /\ 0 <= m <= 59 /\ Re.at_end tail = true
    /\ (s = (hhmm h m ++ tail)%string \/ (h <= 9 /\ s = (hmm h m ++ tail)%string)).
Proof.
  intros H. apply check_time_sem in H. destruct H as (st' & H).
  unfold Trivia.pattern in H. invert_sem; class_bounds.
  all: lazymatch goal with
       | |- exists h m tail, _ /\ _ /\ _ /\
              (String ?a (String ":" (String ?c (String ?d ?t))) = _ \/ _) =>
           exists (digit_of a), (10 * digit_of c + digit_of d), t;
           split; [unfold digit_of; lia |]; split; [unfold digit_of; lia |];
           split; [assumption |]; right; split; [unfold digit_of; lia |];
           apply hmm_of_chars; lia
       | |- exists h m tail, _ /\ _ /\ _ /\
              (String ?a (String ?b (String ":" (String ?c (String ?d ?t)))) = _ \/ _) =>
           exists (10 * digit_of a + digit_of b), (10 * digit_of c + digit_of d), t;
           split; [try change (digit_of "2") with 2; unfold digit_of; lia |];
           split; [unfold digit_of; lia |];
           split; [assumption |]; left; apply hhmm_of_chars;
           try change (nat_of_ascii "2") with 50%nat; lia
       end.
Qed.

(** Conversely, by running the matcher on each of the 24 * 60 texts (and
    the 10 * 60 with a one-digit hour), with and without the line feed. *)
Lemma accepts_hhmm_all :
  forallb (fun h => forallb (accepts_hhmm h) (map Z.of_nat (seq 0 60)))
    (map Z.of_nat (seq 0 24)) = true.
Proof. vm_compute. reflexivity. Qed.

Lemma accepts_hmm_all :
  forallb (fun h => forallb (accepts_hmm h) (map Z.of_nat (seq 0 60)))
    (map Z.of_nat (seq 0 10)) = true.
Proof. vm_compute. reflexivity. Qed.

Lemma check_time_hhmm (h m : Z) (tail : string) :
  0 <= h <= 23 -> 0 <= m <= 59 -> Re.at_end tail = true ->
  Trivia._check_time (hhmm h m ++ tail) = true.
Proof.
  intros Hh Hm Ht.
  pose proof (@forallb_below _ 24 accepts_hhmm_all h ltac:(lia)) as H.
  cbv beta in H.
  pose proof (@forallb_below _ 60 H m ltac:(lia)) as H'.
  unfold accepts_hhmm in H'. apply andb_true_iff in H'. destruct H' as [H1 H2].
  apply at_end_cases in Ht. destruct Ht as [-> | ->].
  - replace (hhmm h m ++ "")%string with (hhmm h m); [exact H1 |].
    unfold hhmm, two_digits. reflexivity.
  - exact H2.
Qed.

Lemma check_time_hmm (h m : Z) (tail : string) :
  0 <= h <= 9 -> 0 <= m <= 59 -> Re.at_end tail = true ->
  Trivia._check_time (hmm h m ++ tail) = true.
Proof.
  intros Hh Hm Ht.
  pose proof (@forallb_below _ 10 accepts_hmm_all h ltac:(lia)) as H.
  cbv beta in H.
  pose proof (@forallb_below _ 60 H m ltac:(lia)) as H'.
  unfold accepts_hmm in H'. apply andb_true_iff in H'. destruct H' as [H1 H2].
  apply at_end_cases in Ht. destruct Ht as [-> | ->].
  - replace (hmm h m ++ "")%string with (hmm h m); [exact H1 |].
    unfold hmm, one_digit, two_digits. reflexivity.
  - exact H2.
Qed.

(** The exact set of texts [_check_time] accepts. *)
Lemma check_time_iff (s : string) :
  Trivia._check_time s = true <->
  exists h m tail,
    0 <= h <= 23 /\ 0 <= m <= 59 /\ Re.at_end tail = true
    /\ (s = (hhmm h m ++ tail)%string \/ (h <= 9 /\ s = (hmm h m ++ tail)%string)).
Proof.
  split; [apply check_time_inv |].
  intros (h & m & tail & Hh & Hm & Ht & [-> | [Hh' ->]]).
  - now apply check_time_hhmm.
  - apply check_time_hmm; [lia | assumption | assumption].
Qed.

(** ** The schedule normaliser *)

Lemma parses_to_spec (s : string) (h m : Z) :
  parses_to s h m = true ->
  strptime s = Ok (mk_datetime strptime_default_date (mk_time h m 0 0)).
Proof.
  unfold parses_to. destruct (strptime s) as [[d [hh mm ss us]] | e]; [| discriminate].
  simpl. rewrite !andb_true_iff, !Z.eqb_eq.
  intros ((((-> & ->) & ->) & ->) & ->). reflexivity.
Qed.

Lemma parses_hhmm_all :
  forallb (fun h => forallb (fun m => parses_to (hhmm h m) h m) (map Z.of_nat (seq 0 60)))
    (map Z.of_nat (seq 0 24)) = true.
Proof. vm_compute. reflexivity. Qed.

Lemma strptime_hhmm (h m : Z) :
  0 <= h <= 23 -> 0 <= m <= 59 ->
  strptime (hhmm h m) = Ok (mk_datetime strptime_default_date (mk_time h m 0 0)).
Proof.
  intros Hh Hm. apply parses_to_spec.
  pose proof (@forallb_below _ 24 parses_hhmm_all h ltac:(lia)) as H.
  cbv beta in H.
  exact (@forallb_below _ 60 H m ltac:(lia)).
Qed.

Lemma timedelta_8h_neg :
  timedelta_neg (timedelta_new 0 8 0 0 0) = mk_timedelta (-1) 57600 0.
Proof. reflexivity. Qed.

Lemma timedelta_new_secs (d s : Z) :
  timedelta_new d 0 0 s 0 = mk_timedelta (d + s / 86400) (s mod 86400) 0.
Proof.
  unfold timedelta_new. change (0 / 1000000) with 0. change (0 mod 1000000) with 0.
  replace (0 * 3600 + 0 * 60 + s + 0) with s by lia. reflexivity.
Qed.

Lemma timedelta_new_time (d h m : Z) :
  0 <= h <= 23 -> 0 <= m <= 59 ->
  timedelta_new d h m 0 0 = mk_timedelta d (h * 3600 + m * 60) 0.
Proof.
  intros Hh Hm. unfold timedelta_new.
  change (0 / 1000000) with 0. change (0 mod 1000000) with 0.
  replace (h * 3600 + m * 60 + 0 + 0) with (h * 3600 + m * 60) by lia.
  f_equal; Z.div_mod_to_equations; lia.
Qed.

(** Eight hours back from [h:m:00] on day [d]: the hour wraps modulo 24,
    the minute stays, and the day is [d] or the day before. *)
Lemma datetime_sub_8h (d h m : Z) (t0 : time) :
  0 <= h <= 23 -> 0 <= m <= 59 -> 1 < d <= MAXORDINAL ->
  exists d',
    datetime_sub (datetime_combine (mk_datetime d t0) (mk_time h m 0 0))
      (timedelta_new 0 8 0 0 0)
    = Ok (mk_datetime d' (mk_time ((h - 8) mod 24) m 0 0))
    /\ d - 1 <= d' <= d.
Proof.
  intros Hh Hm Hd. unfold MAXORDINAL in Hd.
  unfold datetime_sub. rewrite timedelta_8h_neg.
  unfold datetime_add, datetime_combine.
  cbn [dt_date dt_time hour minute second microsecond].
  rewrite timedelta_new_time by assumption.
  unfold timedelta_add.
  cbn [td_days td_seconds td_microseconds].
  change (0 + 0) with 0. rewrite timedelta_new_secs.
  cbn [td_days td_seconds td_microseconds].
  set (s := h * 3600 + m * 60 + 57600).
  assert (Hs : s mod 86400 = ((h - 8) mod 24) * 3600 + m * 60)
    by (subst s; Z.div_mod_to_equations; lia).
  assert (Hq : d - 1 <= d + -1 + s / 86400 <= d)
    by (subst s; Z.div_mod_to_equations; lia).
  rewrite Hs.
  assert (Hr : 0 <= (h - 8) mod 24 <= 23) by (Z.div_mod_to_equations; lia).
  set (h' := (h - 8) mod 24) in *.
  replace ((h' * 3600 + m * 60) / 3600) with h' by (Z.div_mod_to_equations; lia).
  replace ((h' * 3600 + m * 60) mod 3600) with (m * 60) by (Z.div_mod_to_equations; lia).
  replace (m * 60 / 60) with m by (Z.div_mod_to_equations; lia).
  replace ((m * 60) mod 60) with 0 by (Z.div_mod_to_equations; lia).
  set (d' := d + -1 + s / 86400) in *.
  assert (Hb : (0 <? d') && (d' <=? MAXORDINAL) = true)
    by (unfold MAXORDINAL; apply andb_true_iff; split;
        [apply Z.ltb_lt | apply Z.leb_le]; lia).
  rewrite Hb. exists d'. split; [reflexivity | lia].
Qed.

(** On a valid [HH:MM] text the normaliser returns [(h - 8) mod 24 : m]. *)
Lemma get_schedule_hhmm (ch h m : Z) (now : datetime) :
  0 <= h <= 23 -> 0 <= m <= 59 -> after_min_date now ->
  Trivia._get_schedule (Some (TriviaDB.mk_row ch (hhmm h m))) now
  = Ok (mk_time ((h - 8) mod 24) m 0 0).
Proof.
  intros Hh Hm Hd. unfold Trivia._get_schedule.
  cbn [TriviaDB.schedule]. rewrite strptime_hhmm by assumption.
  cbn [dt_time]. destruct now as [d t0].
  destruct (datetime_sub_8h d h m t0 Hh Hm Hd) as (d' & E & _).
  rewrite E. reflexivity.
Qed.

(** ** One tick of the gate, case by case *)

Lemma tick_unset (e : env) (w : Trivia.world) :
  Trivia.config (Trivia.self w) = None ->
  Trivia.trivia_loop e w = (Ok tt, w).
Proof.
  intros H. unfold Trivia.trivia_loop, Trivia.bind, Trivia.gets.
  rewrite H. reflexivity.
Qed.

Lemma tick_set (e : env) (w : Trivia.world) (c : TriviaDB.row) :
  Trivia.config (Trivia.self w) = Some c ->
  Trivia.trivia_loop e w
  = Trivia.dispatch e c (Trivia.mk_world (after_reset e (Trivia.self w)) (Trivia.trace w)).
Proof.
  intros H. destruct w as [s tr]. simpl in H.
  unfold Trivia.trivia_loop, Trivia.bind, Trivia.gets. simpl. rewrite H.
  unfold Trivia.rollover_reset, Trivia.bind, Trivia.gets, after_reset. simpl.
  destruct (Trivia.date_ne _ _); reflexivity.
Qed.

Lemma dispatch_unparsable (e : env) (c : TriviaDB.row) (w : Trivia.world) (x : exn) :
  Trivia._get_schedule (Some c) (today e) = Raise x ->
  Trivia.dispatch e c w = (Raise x, w).
Proof.
  intros H. unfold Trivia.dispatch, Trivia.bind. rewrite H. reflexivity.
Qed.

Lemma dispatch_early (e : env) (c : TriviaDB.row) (w : Trivia.world) (ft : time) :
  Trivia._get_schedule (Some c) (today e) = Ok ft ->
  before_fire ft e ->
  Trivia.dispatch e c w = (Ok tt, w).
Proof.
  intros H Hb. unfold before_fire in Hb.
  unfold Trivia.dispatch, Trivia.bind. rewrite H. simpl. rewrite Hb. reflexivity.
Qed.

Lemma dispatch_sent (e : env) (c : TriviaDB.row) (w : Trivia.world) (ft : time) :
  Trivia._get_schedule (Some c) (today e) = Ok ft ->
  Trivia.sent_today (Trivia.self w) = true ->
  Trivia.dispatch e c w = (Ok tt, w).
Proof.
  intros H Hs. unfold Trivia.dispatch, Trivia.bind. rewrite H. simpl.
  destruct (time_ge _ _); [| reflexivity].
  simpl. rewrite Hs. reflexivity.
Qed.

Lemma dispatch_fire (e : env) (c : TriviaDB.row) (w : Trivia.world) (ft : time) :
  Trivia._get_schedule (Some c) (today e) = Ok ft ->
  at_or_after_fire ft e ->
  Trivia.sent_today (Trivia.self w) = false ->
  Trivia.dispatch e c w = Trivia.send_sequence e c w.
Proof.
  intros H Ha Hs. unfold at_or_after_fire in Ha.
  unfold Trivia.dispatch, Trivia.bind. rewrite H. simpl. rewrite Ha. simpl.
  rewrite Hs. reflexivity.
Qed.

Lemma send_sequence_success (e : env) (c : TriviaDB.row) (w : Trivia.world)
    (ch : channel_t) (fact : json) :
  fetch_succeeds e fact ->
  delivers e (TriviaDB.channel_id c) ch ->
  Trivia.send_sequence e c w
  = (Ok tt, Trivia.mk_world (mark_sent e (Trivia.self w))
              (Trivia.trace w ++ success_events ch fact)).
Proof.
  intros (others & fields & Hf & Ha) (Hc & Hd). destruct w as [s tr].
  unfold Trivia.send_sequence, Trivia.bind, Trivia.emit, Trivia.lift, Trivia.ret,
    Trivia.send, Trivia.modify.
  rewrite Hf, Hc. simpl. rewrite Ha. simpl.
  unfold Trivia.bind, Trivia.emit. simpl. rewrite Hd. simpl.
  unfold mark_sent, success_events. rewrite <- app_assoc. reflexivity.
Qed.


Lemma after_reset_pending (e : env) (c : Trivia.cog) :
  pending c e -> Trivia.sent_today (after_reset e c) = false.
Proof.
  unfold pending, after_reset, Trivia.date_ne. intros [H | H].
  - destruct (Trivia.sent_date c) as [d |]; [destruct (negb _) |]; simpl; auto.
  - destruct (Trivia.sent_date c) as [d |]; [| reflexivity].
    destruct (dt_date (today e) =? d) eqn:E; simpl; [| reflexivity].
    apply Z.eqb_eq in E. subst d. contradiction.
Qed.

Lemma after_reset_same_day (e : env) (c : Trivia.cog) :
  Trivia.sent_date c = Some (dt_date (today e)) -> after_reset e c = c.
Proof.
  intros H. unfold after_reset, Trivia.date_ne. rewrite H, Z.eqb_refl. reflexivity.
Qed.

Lemma after_reset_other_day (e : env) (c : Trivia.cog) :
  Trivia.sent_date c <> Some (dt_date (today e)) ->
  after_reset e c = Trivia.set_sent_today false c.
Proof.
  intros H. unfold after_reset, Trivia.date_ne.
  destruct (Trivia.sent_date c) as [d |]; [| reflexivity].
  destruct (dt_date (today e) =? d) eqn:E; [| reflexivity].
  apply Z.eqb_eq in E. subst d. contradiction.
Qed.

Lemma after_reset_fields (e : env) (c : Trivia.cog) :
  Trivia.sent_date (after_reset e c) = Trivia.sent_date c
  /\ Trivia.config (after_reset e c) = Trivia.config c
  /\ Trivia.database (after_reset e c) = Trivia.database c.
Proof.
  unfold after_reset. destruct (Trivia.date_ne _ _); simpl; auto.
Qed.

Lemma after_reset_idle (e : env) (c : Trivia.cog) :
  Trivia.sent_today c = false -> after_reset e c = c.
Proof.
  intros H. unfold after_reset. destruct (Trivia.date_ne _ _); [| reflexivity].
  destruct c as [st sd cf db]. simpl in H. subst st. reflexivity.
Qed.

(** A tick that does not reach the send sequence: it is before the fire
    time, or the flag still stands after the reset. *)
Lemma tick_quiet (e : env) (w : Trivia.world) (c : TriviaDB.row) (ft : time) :
  Trivia.config (Trivia.self w) = Some c ->
  Trivia._get_schedule (Some c) (today e) = Ok ft ->
  before_fire ft e \/ Trivia.sent_today (after_reset e (Trivia.self w)) = true ->
  Trivia.trivia_loop e w
  = (Ok tt, Trivia.mk_world (after_reset e (Trivia.self w)) (Trivia.trace w)).
Proof.
  intros Hc Hs [Hb | Ht]; rewrite (tick_set e w c Hc).
  - now apply dispatch_early with (ft := ft).
  - now apply dispatch_sent with (ft := ft).
Qed.

(** A tick that fires and whose fetch and delivery succeed. *)
Lemma tick_fire_success (e : env) (w : Trivia.world) (c : TriviaDB.row) (ft : time)
    (ch : channel_t) (fact : json) :
  Trivia.config (Trivia.self w) = Some c ->
  Trivia._get_schedule (Some c) (today e) = Ok ft ->
  at_or_after_fire ft e ->
  pending (Trivia.self w) e ->
  fetch_succeeds e fact ->
  delivers e (TriviaDB.channel_id c) ch ->
  Trivia.trivia_loop e w
  = (Ok tt, Trivia.mk_world (mark_sent e (after_reset e (Trivia.self w)))
              (Trivia.trace w ++ success_events ch fact)).
Proof.
  intros Hc Hs Ha Hp Hf Hd. rewrite (tick_set e w c Hc).
  rewrite (dispatch_fire e c _ ft Hs Ha) by (now apply after_reset_pending).
  now rewrite (send_sequence_success e c _ ch fact Hf Hd).
Qed.


(** ** Runs of ticks *)

Lemma run_app (l1 l2 : list env) (w : Trivia.world) :
  Trivia.run (l1 ++ l2) w
  = match Trivia.run l1 w with
    | (Ok _, w') => Trivia.run l2 w'
    | (Raise x, w') => (Raise x, w')
    end.
Proof.
  revert w. induction l1 as [| e l1 IH]; intros w; simpl.
  - reflexivity.
  - unfold Trivia.bind. destruct (Trivia.trivia_loop e w) as [[[] | x] w'].
    + apply IH.
    + reflexivity.
Qed.

Lemma run_cons (e : env) (l : list env) (w w' : Trivia.world) :
  Trivia.trivia_loop e w = (Ok tt, w') ->
  Trivia.run (e :: l) w = Trivia.run l w'.
Proof.
  intros H. simpl. unfold Trivia.bind. rewrite H. reflexivity.
Qed.

(** Ticks before the fire time leave the trace and [sent_date] alone and
    can only clear the flag. *)
Lemma run_before_fire (c : TriviaDB.row) (ft : time) (ticks : list env) :
  forall w,
    Trivia.config (Trivia.self w) = Some c ->
    Forall (fun e => Trivia._get_schedule (Some c) (today e) = Ok ft) ticks ->
    Forall (before_fire ft) ticks ->
    exists s',
      Trivia.run ticks w = (Ok tt, Trivia.mk_world s' (Trivia.trace w))
      /\ Trivia.config s' = Some c
      /\ Trivia.sent_date s' = Trivia.sent_date (Trivia.self w)
      /\ (Trivia.sent_today (Trivia.self w) = false -> Trivia.sent_today s' = false)
      /\ (Exists (fun e => Trivia.sent_date (Trivia.self w) <> Some (dt_date (today e))) ticks ->
          Trivia.sent_today s' = false).
Proof.
  induction ticks as [| e ticks IH]; intros w Hc Hs Hb.
  - exists (Trivia.self w). destruct w as [s tr]. simpl.
    repeat split; auto. intros H. inversion H.
  - inversion Hs as [| ? ? Hs1 Hs2]; inversion Hb as [| ? ? Hb1 Hb2]; subst.
    pose proof (tick_quiet e w c ft Hc Hs1 (or_introl Hb1)) as Ht.
    rewrite (run_cons _ _ _ _ Ht).
    destruct (after_reset_fields e (Trivia.self w)) as (Fd & Fc & _).
    destruct (IH (Trivia.mk_world (after_reset e (Trivia.self w)) (Trivia.trace w)))
      as (s' & Hr & Hc' & Hd' & Hf' & Hx'); simpl; try assumption.
    + congruence.
    + exists s'. simpl in *. repeat split.
      * exact Hr.
      * exact Hc'.
      * congruence.
      * intros H0. apply Hf'. now rewrite after_reset_idle.
      * intros Hex. inversion Hex as [? ? H1 | ? ? H1]; subst.
        -- apply Hf'. rewrite (after_reset_other_day _ _ H1). reflexivity.
        -- apply Hx'. rewrite Fd. exact H1.
Qed.

(** Once the send of a day is recorded, the ticks that observe the same
    date change nothing. *)
Lemma run_same_day (c : TriviaDB.row) (ft : time) (d : date) (ticks : list env) :
  forall w,
    Trivia.config (Trivia.self w) = Some c ->
    Trivia.sent_today (Trivia.self w) = true ->
    Trivia.sent_date (Trivia.self w) = Some d ->
    Forall (fun e => Trivia._get_schedule (Some c) (today e) = Ok ft) ticks ->
    Forall (fun e => dt_date (today e) = d) ticks ->
    Trivia.run ticks w = (Ok tt, w).
Proof.
  induction ticks as [| e ticks IH]; intros w Hc Ht Hd Hs Hday.
  - reflexivity.
  - inversion Hs as [| ? ? Hs1 Hs2]; inversion Hday as [| ? ? Hd1 Hd2]; subst.
    assert (Hr : after_reset e (Trivia.self w) = Trivia.self w)
      by (apply after_reset_same_day; exact Hd).
    assert (Hq : Trivia.trivia_loop e w = (Ok tt, w)).
    { rewrite (tick_quiet e w c ft Hc Hs1) by (right; rewrite Hr; exact Ht).
      rewrite Hr. destruct w; reflexivity. }
    rewrite (run_cons _ _ _ _ Hq). now apply IH.
Qed.

Lemma schedule_ok_all (ch h m : Z) (ticks : list env) :
  0 <= h <= 23 -> 0 <= m <= 59 ->
  Forall (fun e => after_min_date (today e)) ticks ->
  Forall (fun e => Trivia._get_schedule (Some (TriviaDB.mk_row ch (hhmm h m))) (today e)
                   = Ok (fire_time h m)) ticks.
Proof.
  intros Hh Hm H. induction H as [| e l He Hl IH]; constructor.
  - now apply get_schedule_hhmm.
  - exact IH.
Qed.

(** ** At most one send per day *)

(** The shape of a run that crosses a fire time and a day boundary, for
    any config whose schedule normalises to [ft] on every tick. *)
Lemma run_fires_once (c : TriviaDB.row) (ft : time) (w : Trivia.world)
    (before : list env) (t : env) (sameday nextday : list env)
    (ch : channel_t) (fact : json) :
  Trivia.config (Trivia.self w) = Some c ->
  pending (Trivia.self w) t ->
  Forall (fun e => Trivia._get_schedule (Some c) (today e) = Ok ft)
    (before ++ t :: sameday ++ nextday) ->
  Forall (before_fire ft) before ->
  at_or_after_fire ft t ->
  fetch_succeeds t fact ->
  delivers t (TriviaDB.channel_id c) ch ->
  Forall (fun e => dt_date (today e) = dt_date (today t)) sameday ->
  Forall (fun e => dt_date (today e) <> dt_date (today t) /\ before_fire ft e) nextday ->
  (exists w1,
      Trivia.run before w = (Ok tt, w1) /\ Trivia.trace w1 = Trivia.trace w)
  /\ (exists w2,
        Trivia.run (before ++ [t]) w = (Ok tt, w2)
        /\ Trivia.trace w2 = Trivia.trace w ++ success_events ch fact
        /\ Trivia.sent_today (Trivia.self w2) = true
        /\ Trivia.sent_date (Trivia.self w2) = Some (dt_date (today t)))
  /\ (exists w3,
        Trivia.run (before ++ t :: sameday ++ nextday) w = (Ok tt, w3)
        /\ Trivia.trace w3 = Trivia.trace w ++ success_events ch fact
        /\ Trivia.sent_date (Trivia.self w3) = Some (dt_date (today t))
        /\ (nextday <> [] -> Trivia.sent_today (Trivia.self w3) = false)).
Proof.
  intros Hc Hp Hsched Hbefore Hat Hf Hd Hsame Hnext.
  apply Forall_app in Hsched. destruct Hsched as [Sb Hsched].
  inversion Hsched as [| ? ? St Hsched']; subst.
  apply Forall_app in Hsched'. destruct Hsched' as [Ss Sn].
  destruct (run_before_fire c ft before w Hc Sb Hbefore)
    as (s1 & R1 & C1 & D1 & F1 & _).
  set (w1 := Trivia.mk_world s1 (Trivia.trace w)) in *.
  assert (P1 : pending (Trivia.self w1) t).
  { unfold pending in *. simpl. destruct Hp as [Hp | Hp].
    - left. now apply F1.
    - right. now rewrite D1. }
  pose proof (tick_fire_success t w1 c ft ch fact C1 St Hat P1 Hf Hd) as R2.
  simpl in R2.
  set (w2 := Trivia.mk_world (mark_sent t (after_reset t s1))
               (Trivia.trace w ++ success_events ch fact)) in *.
  assert (C2 : Trivia.config (Trivia.self w2) = Some c).
  { simpl. destruct (after_reset_fields t s1) as (_ & Fc & _). now rewrite Fc. }
  assert (R12 : Trivia.run (before ++ [t]) w = (Ok tt, w2)).
  { rewrite run_app, R1. simpl. unfold Trivia.bind. rewrite R2. reflexivity. }
  split; [| split].
  - exists w1. split; [exact R1 | reflexivity].
  - exists w2. repeat split; [exact R12 ..].
  - assert (R3 : Trivia.run sameday w2 = (Ok tt, w2)).
    { apply (run_same_day c ft (dt_date (today t))); auto. }
    assert (Sn' : Forall (before_fire ft) nextday).
    { eapply Forall_impl; [| exact Hnext]. intros e He. apply He. }
    destruct (run_before_fire c ft nextday w2 C2 Sn Sn')
      as (s3 & R4 & C3 & D3 & _ & X3).
    exists (Trivia.mk_world s3 (Trivia.trace w2)). split; [| split; [| split]].
    + change (before ++ t :: sameday ++ nextday)
        with (before ++ [t] ++ sameday ++ nextday).
      rewrite app_assoc, run_app, R12, run_app, R3. exact R4.
    + reflexivity.
    + simpl. rewrite D3. reflexivity.
    + intros Hne. simpl. apply X3.
      destruct nextday as [| e l]; [contradiction |].
      inversion Hnext as [| ? ? [He _] _]; subst.
      apply Exists_cons_hd. simpl. intros E. inversion E. congruence.
Qed.

(** Past the boundary of the date, the first tick at or after the fire
    time sends again. *)
Lemma run_fires_again (c : TriviaDB.row) (ft : time) (w : Trivia.world)
    (before : list env) (t : env) (sameday nextday : list env) (t' : env)
    (ch ch' : channel_t) (fact fact' : json) :
  Trivia.config (Trivia.self w) = Some c ->
  pending (Trivia.self w) t ->
  Forall (fun e => Trivia._get_schedule (Some c) (today e) = Ok ft)
    (before ++ t :: sameday ++ nextday) ->
  Forall (before_fire ft) before ->
  at_or_after_fire ft t ->
  fetch_succeeds t fact ->
  delivers t (TriviaDB.channel_id c) ch ->
  Forall (fun e => dt_date (today e) = dt_date (today t)) sameday ->
  Forall (fun e => dt_date (today e) <> dt_date (today t) /\ before_fire ft e) nextday ->
  Trivia._get_schedule (Some c) (today t') = Ok ft ->
  dt_date (today t') <> dt_date (today t) ->
  at_or_after_fire ft t' ->
  fetch_succeeds t' fact' ->
  delivers t' (TriviaDB.channel_id c) ch' ->
  exists w4,
    Trivia.run ((before ++ t :: sameday ++ nextday) ++ [t']) w = (Ok tt, w4)
    /\ Trivia.trace w4
       = Trivia.trace w ++ success_events ch fact ++ success_events ch' fact'
    /\ Trivia.sent_today (Trivia.self w4) = true
    /\ Trivia.sent_date (Trivia.self w4) = Some (dt_date (today t')).
Proof.
  intros Hc Hp Hsched Hbefore Hat Hf Hd Hsame Hnext St' Hne' Hat' Hf' Hd'.
  apply Forall_app in Hsched. destruct Hsched as [Sb Hsched].
  inversion Hsched as [| ? ? St Hsched']; subst.
  apply Forall_app in Hsched'. destruct Hsched' as [Ss Sn].
  destruct (run_before_fire c ft before w Hc Sb Hbefore)
    as (s1 & R1 & C1 & D1 & F1 & _).
  set (w1 := Trivia.mk_world s1 (Trivia.trace w)) in *.
  assert (P1 : pending (Trivia.self w1) t).
  { unfold pending in *. simpl. destruct Hp as [Hp | Hp].
    - left. now apply F1.
    - right. now rewrite D1. }
  pose proof (tick_fire_success t w1 c ft ch fact C1 St Hat P1 Hf Hd) as R2.
  simpl in R2.
  set (w2 := Trivia.mk_world (mark_sent t (after_reset t s1))
               (Trivia.trace w ++ success_events ch fact)) in *.
  assert (C2 : Trivia.config (Trivia.self w2) = Some c).
  { simpl. destruct (after_reset_fields t s1) as (_ & Fc & _). now rewrite Fc. }
  assert (R12 : Trivia.run (before ++ [t]) w = (Ok tt, w2)).
  { rewrite run_app, R1. simpl. unfold Trivia.bind. rewrite R2. reflexivity. }
  assert (R3 : Trivia.run sameday w2 = (Ok tt, w2)).
  { apply (run_same_day c ft (dt_date (today t))); auto. }
  assert (Sn' : Forall (before_fire ft) nextday).
  { eapply Forall_impl; [| exact Hnext]. intros e He. apply He. }
  destruct (run_before_fire c ft nextday w2 C2 Sn Sn')
    as (s3 & R4 & C3 & D3 & _ & _).
  set (w3 := Trivia.mk_world s3 (Trivia.trace w2)) in *.
  assert (R123 : Trivia.run (before ++ t :: sameday ++ nextday) w = (Ok tt, w3)).
  { change (before ++ t :: sameday ++ nextday)
      with (before ++ [t] ++ sameday ++ nextday).
    rewrite app_assoc, run_app, R12, run_app, R3. exact R4. }
  assert (P3 : pending (Trivia.self w3) t').
  { right. simpl. rewrite D3. simpl. intros E. inversion E. congruence. }
  pose proof (tick_fire_success t' w3 c ft ch' fact' C3 St' Hat' P3 Hf' Hd') as R5.
  eexists. split; [| split; [| split]].
  - rewrite run_app, R123. simpl. unfold Trivia.bind. rewrite R5. reflexivity.
  - simpl. now rewrite <- app_assoc.
  - reflexivity.
  - reflexivity.
Qed.

(** C1, as stated, fails twice over.  On a host eight hours ahead of UTC
    with schedule 09:00 (fire time 01:00 UTC), a clock ticking every
    minute from 00:59 UTC, with every fetch succeeding, sends at 01:00
    and again at 16:00 UTC, the first tick of the next local date: two
    sends within one UTC date, and two over the 1440 ticks of the run.
    And a run that starts with the send of the date already recorded,
    from 00:59 UTC to 00:59 UTC of the next day on a host in UTC, sends
    nothing. *)
Lemma C1_local_date_counterexample :
  Trivia.config (Trivia.self (configured "09:00")) <> None
  /\ before_fire (fire_time 9 0) (manila_tick (19000 * 1440 + 59))
  /\ forallb (fun e => dt_date (utcnow e) =? epoch_ordinal + 19000)
       (minute_ticks manila_tick (19000 * 1440 + 59) 902) = true
  /\ fst (Trivia.run (minute_ticks manila_tick (19000 * 1440 + 59) 902)
            (configured "09:00")) = Ok tt
  /\ count_events is_success_notice
       (Trivia.trace
          (snd (Trivia.run (minute_ticks manila_tick (19000 * 1440 + 59) 902)
                  (configured "09:00")))) = 2%nat
  /\ count_events is_success_notice
       (Trivia.trace
          (snd (Trivia.run (minute_ticks manila_tick (19000 * 1440 + 59) 1440)
                  (configured "09:00")))) = 2%nat
  /\ Trivia.config (Trivia.self sent_on_738000) <> None
  /\ count_events is_success_notice
       (Trivia.trace
          (snd (Trivia.run (minute_ticks utc_tick (18837 * 1440 + 59) 1441)
                  sent_on_738000))) = 0%nat.
Proof.
  split; [discriminate |].
  split; [unfold before_fire; vm_compute; reflexivity |].
  split; [vm_compute; reflexivity |].
  split; [vm_compute; reflexivity |].
  split; [vm_compute; reflexivity |].
  split; [vm_compute; reflexivity |].
  split; [discriminate |].
  vm_compute; reflexivity.
Qed.

(** C1 (amended).  At most once per date.  Config is set to a valid
    schedule [h:m] and the gate has not recorded a send for the date of
    tick [t].  The clock advances through the ticks [before] (all before
    the normalised fire time), the tick [t] (the first at or after it, on
    which the fetch and the delivery succeed), the ticks [sameday] (the
    rest of the date [t] reads from [datetime.today()], the local date of
    the host) and the ticks [nextday] (of another date, before the fire
    time).  Then no tick of [before] calls a collaborator, the tick [t]
    runs the send sequence (fetch, notify, record [sent_today] and
    [sent_date]), and over the whole run the send sequence has run
    exactly that once; past the boundary the flag is cleared again, and
    the first tick [t'] of another date that is at or after the fire time
    runs the send sequence a second time. *)
Theorem C1_at_most_once_per_day
    (id h m : Z) (w : Trivia.world)
    (before : list env) (t : env) (sameday nextday : list env)
    (ch : channel_t) (fact : json) :
  0 <= h <= 23 -> 0 <= m <= 59 ->
  Trivia.config (Trivia.self w) = Some (TriviaDB.mk_row id (hhmm h m)) ->
  pending (Trivia.self w) t ->
  Forall (fun e => after_min_date (today e)) (before ++ t :: sameday ++ nextday) ->
  Forall (before_fire (fire_time h m)) before ->
  at_or_after_fire (fire_time h m) t ->
  fetch_succeeds t fact ->
  delivers t id ch ->
  Forall (fun e => dt_date (today e) = dt_date (today t)) sameday ->
  Forall (fun e => dt_date (today e) <> dt_date (today t)
                   /\ before_fire (fire_time h m) e) nextday ->
  (exists w1,
      Trivia.run before w = (Ok tt, w1) /\ Trivia.trace w1 = Trivia.trace w)
  /\ (exists w2,
        Trivia.run (before ++ [t]) w = (Ok tt, w2)
        /\ Trivia.trace w2 = Trivia.trace w ++ success_events ch fact
        /\ Trivia.sent_today (Trivia.self w2) = true
        /\ Trivia.sent_date (Trivia.self w2) = Some (dt_date (today t)))
  /\ (exists w3,
        Trivia.run (before ++ t :: sameday ++ nextday) w = (Ok tt, w3)
        /\ Trivia.trace w3 = Trivia.trace w ++ success_events ch fact
        /\ Trivia.sent_date (Trivia.self w3) = Some (dt_date (today t))
        /\ (nextday <> [] -> Trivia.sent_today (Trivia.self w3) = false))
  /\ (forall t' ch' fact',
        after_min_date (today t') ->
        dt_date (today t') <> dt_date (today t) ->
        at_or_after_fire (fire_time h m) t' ->
        fetch_succeeds t' fact' ->
        delivers t' id ch' ->
        exists w4,
          Trivia.run ((before ++ t :: sameday ++ nextday) ++ [t']) w = (Ok tt, w4)
          /\ Trivia.trace w4
             = Trivia.trace w ++ success_events ch fact ++ success_events ch' fact'
          /\ Trivia.sent_today (Trivia.self w4) = true
          /\ Trivia.sent_date (Trivia.self w4) = Some (dt_date (today t'))).
Proof.
  intros Hh Hm Hc Hp Hdates Hbefore Hat Hf Hd Hsame Hnext.
  pose proof (schedule_ok_all id h m _ Hh Hm Hdates) as Hsched.
  pose proof (run_fires_once (TriviaDB.mk_row id (hhmm h m)) (fire_time h m) w
                before t sameday nextday ch fact Hc Hp Hsched Hbefore Hat Hf Hd
                Hsame Hnext) as (H1 & H2 & H3).
  split; [exact H1 |]. split; [exact H2 |]. split; [exact H3 |].
  intros t' ch' fact' Hd' Hne' Hat' Hf' Hdel'.
  apply (run_fires_again (TriviaDB.mk_row id (hhmm h m)) (fire_time h m) w
           before t sameday nextday t' ch ch' fact fact'); try assumption.
  apply get_schedule_hhmm; assumption.
Qed.

Ltac by_computation :=
  vm_compute;
  repeat match goal with
         | |- _ /\ _ => split
         | |- _ = _ => reflexivity
         | |- _ <> _ => discriminate
         | |- _ -> False => discriminate
         end.

(** Schedule 09:00 on a host eight hours ahead of UTC: ticks at 00:59,
    01:00, 01:01 and 15:59 UTC, all of one local date, then 16:00 UTC,
    the first tick of the next local date. *)
Lemma C1_at_most_once_per_day_witness :
  (exists w3,
      Trivia.run ([manila_tick (19000 * 1440 + 59)]
                  ++ manila_tick (19000 * 1440 + 60)
                     :: [manila_tick (19000 * 1440 + 61); manila_tick (19000 * 1440 + 959)]
                        ++ [])
        (configured "09:00") = (Ok tt, w3)
      /\ Trivia.trace w3
         = Trivia.trace (configured "09:00") ++ success_events 1 (JStr "Bees can fly.")
      /\ Trivia.sent_date (Trivia.self w3)
         = Some (dt_date (today (manila_tick (19000 * 1440 + 60))))
      /\ (@nil env <> [] -> Trivia.sent_today (Trivia.self w3) = false))
  /\ (exists w4,
        Trivia.run (([manila_tick (19000 * 1440 + 59)]
                     ++ manila_tick (19000 * 1440 + 60)
                        :: [manila_tick (19000 * 1440 + 61);
                            manila_tick (19000 * 1440 + 959)]
                           ++ [])
                    ++ [manila_tick (19000 * 1440 + 960)])
          (configured "09:00") = (Ok tt, w4)
        /\ Trivia.trace w4
           = Trivia.trace (configured "09:00")
             ++ success_events 1 (JStr "Bees can fly.")
             ++ success_events 1 (JStr "Bees can fly.")
        /\ Trivia.sent_today (Trivia.self w4) = true
        /\ Trivia.sent_date (Trivia.self w4)
           = Some (dt_date (today (manila_tick (19000 * 1440 + 960))))).
Proof.
  assert (Hh : 0 <= 9 <= 23) by lia. assert (Hm : 0 <= 0 <= 59) by lia.
  assert (Hc : Trivia.config (Trivia.self (configured "09:00"))
               = Some (TriviaDB.mk_row 1 (hhmm 9 0))) by (vm_compute; reflexivity).
  assert (Hp : pending (Trivia.self (configured "09:00")) (manila_tick (19000 * 1440 + 60)))
    by (left; reflexivity).
  assert (Hdates : Forall (fun e => after_min_date (today e))
                     ([manila_tick (19000 * 1440 + 59)]
                      ++ manila_tick (19000 * 1440 + 60)
                         :: [manila_tick (19000 * 1440 + 61);
                             manila_tick (19000 * 1440 + 959)] ++ [])).
  { repeat apply Forall_cons; try apply Forall_nil; unfold after_min_date; by_computation. }
  assert (Hbefore : Forall (before_fire (fire_time 9 0)) [manila_tick (19000 * 1440 + 59)]).
  { repeat apply Forall_cons; try apply Forall_nil; unfold before_fire; by_computation. }
  assert (Hat : at_or_after_fire (fire_time 9 0) (manila_tick (19000 * 1440 + 60)))
    by (unfold at_or_after_fire; by_computation).
  assert (Hf : fetch_succeeds (manila_tick (19000 * 1440 + 60)) (JStr "Bees can fly."))
    by (exists [], [("fact", JStr "Bees can fly.")]; split; reflexivity).
  assert (Hd : delivers (manila_tick (19000 * 1440 + 60)) 1 1)
    by (split; [reflexivity | intros msg; reflexivity]).
  assert (Hsame : Forall (fun e => dt_date (today e)
                                   = dt_date (today (manila_tick (19000 * 1440 + 60))))
                    [manila_tick (19000 * 1440 + 61); manila_tick (19000 * 1440 + 959)]).
  { repeat apply Forall_cons; try apply Forall_nil; by_computation. }
  assert (Hnext : Forall (fun e => dt_date (today e)
                                   <> dt_date (today (manila_tick (19000 * 1440 + 60)))
                                   /\ before_fire (fire_time 9 0) e) []) by apply Forall_nil.
  destruct (C1_at_most_once_per_day 1 9 0 (configured "09:00")
              [manila_tick (19000 * 1440 + 59)] (manila_tick (19000 * 1440 + 60))
              [manila_tick (19000 * 1440 + 61); manila_tick (19000 * 1440 + 959)] []
              1 (JStr "Bees can fly.") Hh Hm Hc Hp Hdates Hbefore Hat Hf Hd Hsame Hnext)
    as (_ & _ & H3 & H4).
  split; [exact H3 |].
  apply (H4 (manila_tick (19000 * 1440 + 960)) 1 (JStr "Bees can fly.")).
  - unfold after_min_date. by_computation.
  - vm_compute. discriminate.
  - unfold at_or_after_fire. by_computation.
  - exists [], [("fact", JStr "Bees can fly.")]. split; reflexivity.
  - split; [reflexivity | intros msg; reflexivity].
Defined.

(** ** Fetch failures and retries *)

Lemma count_events_app (p : event -> bool) (a b : list event) :
  count_events p (a ++ b) = (count_events p a + count_events p b)%nat.
Proof.
  unfold count_events. rewrite filter_app. apply length_app.
Qed.








(** ** The normaliser on valid schedules *)

(** C5.  Schedule Normalizer correctness.  For every valid schedule text
    [HH:MM] with hour [h] and minute [m] (a text [_check_time] accepts),
    and every current date after 0001-01-01, [_get_schedule] returns the
    time of day with hour [(h - 8) mod 24], minute [m] and zero seconds,
    and that hour lies in [0, 23]. *)
Theorem C5_schedule_normalizer (id h m : Z) (now : datetime) :
  0 <= h <= 23 -> 0 <= m <= 59 -> after_min_date now ->
  Trivia._check_time (hhmm h m) = true
  /\ Trivia._get_schedule (Some (TriviaDB.mk_row id (hhmm h m))) now
     = Ok (mk_time ((h - 8) mod 24) m 0 0)
  /\ 0 <= (h - 8) mod 24 <= 23.
Proof.
  intros Hh Hm Hd. split; [| split].
  - replace (hhmm h m) with (hhmm h m ++ "")%string
      by (unfold hhmm, two_digits; reflexivity).
    now apply check_time_hhmm.
  - now apply get_schedule_hhmm.
  - Z.div_mod_to_equations. lia.
Qed.

(** Schedule 07:30 on 2021-07-23 (ordinal 738000): 23:30. *)
Lemma C5_schedule_normalizer_witness :
  Trivia._check_time (hhmm 7 30) = true
  /\ Trivia._get_schedule (Some (TriviaDB.mk_row 1 (hhmm 7 30)))
       (mk_datetime 738000 (mk_time 12 0 0 0))
     = Ok (mk_time ((7 - 8) mod 24) 30 0 0)
  /\ 0 <= (7 - 8) mod 24 <= 23.
Proof.
  apply (C5_schedule_normalizer 1 7 30 (mk_datetime 738000 (mk_time 12 0 0 0))).
  - lia.
  - lia.
  - unfold after_min_date. by_computation.
Defined.

(** C10.  Date-independence of the normaliser.  For every valid schedule
    text [HH:MM], the result of [_get_schedule] is the same whichever of
    two current dates (after 0001-01-01) it combines the schedule with:
    it is the time fixed by the text and the eight-hour offset. *)
Theorem C10_date_independence (id h m : Z) (now1 now2 : datetime) :
  0 <= h <= 23 -> 0 <= m <= 59 -> after_min_date now1 -> after_min_date now2 ->
  Trivia._get_schedule (Some (TriviaDB.mk_row id (hhmm h m))) now1
  = Trivia._get_schedule (Some (TriviaDB.mk_row id (hhmm h m))) now2
  /\ Trivia._get_schedule (Some (TriviaDB.mk_row id (hhmm h m))) now1
     = Ok (fire_time h m).
Proof.
  intros Hh Hm H1 H2.
  rewrite (get_schedule_hhmm id h m now1 Hh Hm H1).
  rewrite (get_schedule_hhmm id h m now2 Hh Hm H2).
  split; reflexivity.
Qed.

(** Schedule 07:30 read on 2021-07-23 at noon and on the last day of
    year 9999 just before midnight. *)
Lemma C10_date_independence_witness :
  Trivia._get_schedule (Some (TriviaDB.mk_row 1 (hhmm 7 30)))
    (mk_datetime 738000 (mk_time 12 0 0 0))
  = Trivia._get_schedule (Some (TriviaDB.mk_row 1 (hhmm 7 30)))
      (mk_datetime MAXORDINAL (mk_time 23 59 59 999999))
  /\ Trivia._get_schedule (Some (TriviaDB.mk_row 1 (hhmm 7 30)))
       (mk_datetime 738000 (mk_time 12 0 0 0))
     = Ok (fire_time 7 30).
Proof.
  apply (C10_date_independence 1 7 30 (mk_datetime 738000 (mk_time 12 0 0 0))
           (mk_datetime MAXORDINAL (mk_time 23 59 59 999999))).
  - lia.
  - lia.
  - unfold after_min_date. by_computation.
  - unfold after_min_date. by_computation.
Defined.

(** ** The fire-time comparison *)

(** C6.  Fire-time tie-break, for Config set to a valid schedule [h:m].
    A tick whose UTC time of day is strictly before the fire time does
    not fire: it returns after the rollover reset without calling a
    collaborator.  A tick whose time of day is greater than or equal to
    the fire time, with the day's send pending, fires: it runs the send
    sequence.  In particular schedule 09:00 normalises to 01:00; a tick
    at 00:59 UTC does not fire, a tick at 01:00 UTC fires, and with the
    payload [[{"fact": "Bees can fly."}]] the body of the notification is
    that fact. *)
Theorem C6_fire_time_tie_break (id h m : Z) (e : env) (w : Trivia.world) :
  0 <= h <= 23 -> 0 <= m <= 59 ->
  Trivia.config (Trivia.self w) = Some (TriviaDB.mk_row id (hhmm h m)) ->
  after_min_date (today e) ->
  (time_ge (dt_time (utcnow e)) (fire_time h m) = false ->
   Trivia.trivia_loop e w
   = (Ok tt, Trivia.mk_world (after_reset e (Trivia.self w)) (Trivia.trace w)))
  /\ (time_ge (dt_time (utcnow e)) (fire_time h m) = true ->
      pending (Trivia.self w) e ->
      Trivia.trivia_loop e w
      = Trivia.send_sequence e (TriviaDB.mk_row id (hhmm h m))
          (Trivia.mk_world (after_reset e (Trivia.self w)) (Trivia.trace w)))
  /\ (Trivia._get_schedule (Some (TriviaDB.mk_row 1 "09:00"))
        (today (utc_tick (19000 * 1440 + 59)))
      = Ok (mk_time 1 0 0 0)
      /\ dt_time (utcnow (utc_tick (19000 * 1440 + 59))) = mk_time 0 59 0 0
      /\ Trivia.trivia_loop (utc_tick (19000 * 1440 + 59)) (configured "09:00")
         = (Ok tt, configured "09:00")
      /\ dt_time (utcnow (utc_tick (19000 * 1440 + 60))) = mk_time 1 0 0 0
      /\ exists sent,
          Trivia.trivia_loop (utc_tick (19000 * 1440 + 60)) (configured "09:00")
          = (Ok tt,
             Trivia.mk_world sent
               [HttpGet Trivia.api_url;
                ChannelSend 1
                  (WithEmbed
                     (mk_Embed "Prof. Progphil Trivia of the Day"
                        (JStr "Bees can fly.") "blurple"
                        "https://cdn.discordapp.com/attachments/972510204505763951/1076388478088122368/image-12.png"))])
          /\ Trivia.sent_today sent = true).
Proof.
  intros Hh Hm Hc Hd.
  pose proof (get_schedule_hhmm id h m (today e) Hh Hm Hd) as Hs.
  split; [| split].
  - intros Hb. exact (tick_quiet e w _ _ Hc Hs (or_introl Hb)).
  - intros Ha Hp. rewrite (tick_set e w _ Hc).
    apply (dispatch_fire e _ _ (fire_time h m) Hs Ha).
    now apply after_reset_pending.
  - split; [vm_compute; reflexivity |].
    split; [vm_compute; reflexivity |].
    split; [vm_compute; reflexivity |].
    split; [vm_compute; reflexivity |].
    eexists. split; vm_compute; reflexivity.
Qed.

Lemma C6_fire_time_tie_break_witness :
  Trivia.trivia_loop (utc_tick (19000 * 1440 + 59)) (configured "09:00")
  = (Ok tt,
     Trivia.mk_world
       (after_reset (utc_tick (19000 * 1440 + 59)) (Trivia.self (configured "09:00")))
       (Trivia.trace (configured "09:00")))
  /\ Trivia.trivia_loop (utc_tick (19000 * 1440 + 60)) (configured "09:00")
     = Trivia.send_sequence (utc_tick (19000 * 1440 + 60)) (TriviaDB.mk_row 1 (hhmm 9 0))
         (Trivia.mk_world
            (after_reset (utc_tick (19000 * 1440 + 60)) (Trivia.self (configured "09:00")))
            (Trivia.trace (configured "09:00"))).
Proof.
  assert (Hh : 0 <= 9 <= 23) by lia. assert (Hm : 0 <= 0 <= 59) by lia.
  split.
  - refine (proj1 (C6_fire_time_tie_break 1 9 0 (utc_tick (19000 * 1440 + 59))
                     (configured "09:00") Hh Hm _ _) _).
    + vm_compute. reflexivity.
    + unfold after_min_date. by_computation.
    + vm_compute. reflexivity.
  - refine (proj1 (proj2 (C6_fire_time_tie_break 1 9 0 (utc_tick (19000 * 1440 + 60))
                     (configured "09:00") Hh Hm _ _)) _ _).
    + vm_compute. reflexivity.
    + unfold after_min_date. by_computation.
    + vm_compute. reflexivity.
    + left. reflexivity.
Defined.

(** ** The validation predicate *)

Lemma hhmm_length (h m : Z) : String.length (hhmm h m) = 5%nat.
Proof. reflexivity. Qed.

(** C7, as stated, fails: [9:05] has a one-digit hour and is accepted. *)
Lemma C7_one_digit_hour_counterexample :
  Trivia._check_time "9:05" = true /\ ~ is_HHMM "9:05".
Proof.
  split; [vm_compute; reflexivity |].
  intros (h & m & _ & _ & E).
  apply (f_equal String.length) in E. rewrite hhmm_length in E. discriminate.
Qed.

Lemma ends_with_newline_hhmm (h m : Z) :
  ends_with_newline (hhmm h m) = false
  /\ ends_with_newline (hhmm h m ++ String Re.newline EmptyString) = true.
Proof.
  unfold hhmm, two_digits. simpl.
  split; [| reflexivity].
  destruct (Ascii.eqb (digit_char (m mod 10)) Re.newline) eqn:E; [| reflexivity].
  exfalso. apply Ascii.eqb_eq in E.
  apply (f_equal nat_of_ascii) in E. unfold digit_char in E.
  rewrite nat_ascii_embedding in E.
  - change (nat_of_ascii Re.newline) with 10%nat in E.
    assert (0 <= m mod 10 < 10) by (apply Z.mod_pos_bound; lia). lia.
  - assert (0 <= m mod 10 < 10) by (apply Z.mod_pos_bound; lia). lia.
Qed.

Lemma ends_with_newline_hmm (h m : Z) :
  ends_with_newline (hmm h m) = false
  /\ ends_with_newline (hmm h m ++ String Re.newline EmptyString) = true.
Proof.
  unfold hmm, one_digit, two_digits. simpl.
  split; [| reflexivity].
  destruct (Ascii.eqb (digit_char (m mod 10)) Re.newline) eqn:E; [| reflexivity].
  exfalso. apply Ascii.eqb_eq in E.
  apply (f_equal nat_of_ascii) in E. unfold digit_char in E.
  rewrite nat_ascii_embedding in E.
  - change (nat_of_ascii Re.newline) with 10%nat in E.
    assert (0 <= m mod 10 < 10) by (apply Z.mod_pos_bound; lia). lia.
  - assert (0 <= m mod 10 < 10) by (apply Z.mod_pos_bound; lia). lia.
Qed.

(** C7 (amended).  Time-string validation predicate.  For every input
    string that does not end in a line feed, [_check_time] returns true
    if and only if the string is an hour 0-23 written with two digits or
    (for 0-9) with one, a colon, and a two-digit minute 00-59. *)
Theorem C7_check_time_predicate (s : string) :
  ends_with_newline s = false ->
  (Trivia._check_time s = true <-> is_HHMM s \/ is_HMM s).
Proof.
  intros Hn. rewrite check_time_iff. split.
  - intros (h & m & tail & Hh & Hm & Ht & Hs).
    apply at_end_cases in Ht. destruct Ht as [-> | ->].
    + destruct Hs as [-> | [Hh' ->]].
      * left. exists h, m. split; [lia |]. split; [lia |].
        unfold hhmm, two_digits. reflexivity.
      * right. exists h, m. split; [lia |]. split; [lia |].
        unfold hmm, one_digit, two_digits. reflexivity.
    + exfalso. destruct Hs as [-> | [Hh' ->]].
      * destruct (ends_with_newline_hhmm h m) as [_ E]. congruence.
      * destruct (ends_with_newline_hmm h m) as [_ E]. congruence.
  - intros [(h & m & Hh & Hm & ->) | (h & m & Hh & Hm & ->)].
    + exists h, m, EmptyString. split; [lia |]. split; [lia |].
      split; [reflexivity |].
      left. unfold hhmm, two_digits. reflexivity.
    + exists h, m, EmptyString. split; [lia |]. split; [lia |].
      split; [reflexivity |].
      right. split; [lia |]. unfold hmm, one_digit, two_digits. reflexivity.
Qed.

Lemma C7_check_time_predicate_witness :
  Trivia._check_time "16:23" = true <-> is_HHMM "16:23" \/ is_HMM "16:23".
Proof.
  apply (C7_check_time_predicate "16:23"). vm_compute. reflexivity.
Defined.

(** ** What a tick lets out *)

(** C8, as stated, fails: with the channel unresolvable the tick ends by
    propagating [AttributeError]. *)
Lemma C8_null_channel_counterexample :
  fst (Trivia.trivia_loop channel_gone (configured "09:00")) = Raise AttributeError.
Proof. vm_compute. reflexivity. Qed.

(** C8 (amended).  Tick-failure containment.  Of the failures inside a
    gate tick only a fetch answered with a status other than 200 is
    handled: with the channel resolved and the error notification
    delivered the tick returns normally.  Nothing else is caught: an
    unparsable stored schedule, a transport error of the fetch, a payload
    from which the fact cannot be read, an unresolvable channel and a
    delivery error each leave [trivia_loop] as an exception.  The
    unparsable schedule does so before the fire-time comparison, on every
    tick, with no call made and the cog as the rollover reset left it:
    [sent_today] false when the send of the date was pending, still true
    when it was recorded.  The other four occur in the send sequence,
    which runs only with the send pending, and leave [sent_today]
    false. *)
Theorem C8_tick_failure_containment (e : env) (w : Trivia.world) (c : TriviaDB.row) :
  Trivia.config (Trivia.self w) = Some c ->
  (forall x,
      Trivia._get_schedule (Some c) (today e) = Raise x ->
      Trivia.trivia_loop e w
      = (Raise x, Trivia.mk_world (after_reset e (Trivia.self w)) (Trivia.trace w))
      /\ (pending (Trivia.self w) e ->
          Trivia.sent_today (after_reset e (Trivia.self w)) = false)
      /\ (sent_for (dt_date (today e)) (Trivia.self w) ->
          Trivia.sent_today (after_reset e (Trivia.self w)) = true))
  /\ (forall ft,
      Trivia._get_schedule (Some c) (today e) = Ok ft ->
      at_or_after_fire ft e ->
      pending (Trivia.self w) e ->
      (forall x, requests_get e = Raise x -> fst (Trivia.trivia_loop e w) = Raise x)
      /\ (forall resp,
          requests_get e = Ok resp -> status_code resp <> 200 ->
          match get_channel e (TriviaDB.channel_id c) with
          | None => fst (Trivia.trivia_loop e w) = Raise AttributeError
          | Some ch =>
              match channel_send e (Content (Trivia.error_text (status_code resp))) with
              | None => fst (Trivia.trivia_loop e w) = Ok tt
              | Some x => fst (Trivia.trivia_loop e w) = Raise x
              end
          end)
      /\ (forall resp,
          requests_get e = Ok resp -> status_code resp = 200 ->
          match payload_fact resp with
          | Raise x => fst (Trivia.trivia_loop e w) = Raise x
          | Ok fact =>
              match get_channel e (TriviaDB.channel_id c) with
              | None => fst (Trivia.trivia_loop e w) = Raise AttributeError
              | Some ch =>
                  match channel_send e (WithEmbed (Trivia.trivia_embed fact)) with
                  | None => fst (Trivia.trivia_loop e w) = Ok tt
                  | Some x => fst (Trivia.trivia_loop e w) = Raise x
                  end
              end
          end)
      /\ (fst (Trivia.trivia_loop e w) <> Ok tt ->
          Trivia.self (snd (Trivia.trivia_loop e w))
          = Trivia.set_sent_today false (Trivia.self w))).
Proof.
  intros Hc. split.
  - intros x Hx. rewrite (tick_set e w c Hc).
    split; [| split].
    + now rewrite (dispatch_unparsable e c _ x Hx).
    + apply after_reset_pending.
    + intros (Ht & Hd). now rewrite (after_reset_same_day e (Trivia.self w) Hd).
  - intros ft Hs Ha Hp. rewrite (tick_set e w c Hc).
    rewrite (dispatch_fire e c _ ft Hs Ha) by (now apply after_reset_pending).
    assert (Hr : after_reset e (Trivia.self w) = Trivia.set_sent_today false (Trivia.self w)).
    { destruct Hp as [Hp | Hp].
      - rewrite after_reset_idle by exact Hp.
        destruct (Trivia.self w) as [st sd cf db]. simpl in Hp. subst st. reflexivity.
      - now apply after_reset_other_day. }
    rewrite Hr.
    unfold Trivia.send_sequence, Trivia.bind, Trivia.emit, Trivia.lift, Trivia.ret,
      Trivia.raise, Trivia.send, Trivia.modify, payload_fact; simpl.
    split; [| split; [| split]].
    + intros x Hx. rewrite Hx. reflexivity.
    + intros resp Hx Hn. rewrite Hx. simpl.
      apply Z.eqb_neq in Hn. rewrite Hn. simpl.
      destruct (get_channel e (TriviaDB.channel_id c)); simpl; [| reflexivity].
      unfold Trivia.bind, Trivia.emit; simpl.
      destruct (channel_send e _); reflexivity.
    + intros resp Hx Hn. rewrite Hx. simpl.
      apply Z.eqb_eq in Hn. rewrite Hn. simpl.
      destruct (response_json resp) as [j | x]; simpl; [| reflexivity].
      destruct (getitem_0 j) as [first | x]; simpl; [| reflexivity].
      destruct (getitem_str first "fact") as [fact | x]; simpl; [| reflexivity].
      destruct (get_channel e (TriviaDB.channel_id c)); simpl; [| reflexivity].
      unfold Trivia.bind, Trivia.emit; simpl.
      destruct (channel_send e _); reflexivity.
    + destruct (requests_get e) as [resp | x]; simpl; [| reflexivity].
      destruct (status_code resp =? 200); simpl.
      * destruct (response_json resp) as [j | x]; simpl; [| reflexivity].
        destruct (getitem_0 j) as [first | x]; simpl; [| reflexivity].
        destruct (getitem_str first "fact") as [fact | x]; simpl; [| reflexivity].
        destruct (get_channel e (TriviaDB.channel_id c)); simpl; [| reflexivity].
        unfold Trivia.bind, Trivia.emit; simpl.
        destruct (channel_send e _); simpl; [reflexivity | congruence].
      * destruct (get_channel e (TriviaDB.channel_id c)); simpl; [| reflexivity].
        unfold Trivia.bind, Trivia.emit; simpl.
        destruct (channel_send e _); simpl; [reflexivity | congruence].
Qed.

(** A stored schedule that [strptime] cannot parse, met with the send
    of the date recorded, and a null channel. *)
Lemma C8_tick_failure_containment_witness :
  (Trivia.trivia_loop (utc_tick (18837 * 1440 + 60)) sent_with_abc
   = (Raise ValueError,
      Trivia.mk_world
        (after_reset (utc_tick (18837 * 1440 + 60)) (Trivia.self sent_with_abc))
        (Trivia.trace sent_with_abc))
   /\ Trivia.sent_today
        (after_reset (utc_tick (18837 * 1440 + 60)) (Trivia.self sent_with_abc)) = true)
  /\ match get_channel channel_gone (TriviaDB.channel_id (TriviaDB.mk_row 1 "09:00")) with
     | None => fst (Trivia.trivia_loop channel_gone (configured "09:00"))
               = Raise AttributeError
     | Some ch =>
         match channel_send channel_gone
                 (WithEmbed (Trivia.trivia_embed (JStr "Bees can fly."))) with
         | None => fst (Trivia.trivia_loop channel_gone (configured "09:00")) = Ok tt
         | Some x => fst (Trivia.trivia_loop channel_gone (configured "09:00")) = Raise x
         end
     end.
Proof.
  split.
  - assert (Hc : Trivia.config (Trivia.self sent_with_abc)
                 = Some (TriviaDB.mk_row 1 "abc")) by reflexivity.
    assert (Hx : Trivia._get_schedule (Some (TriviaDB.mk_row 1 "abc"))
                   (today (utc_tick (18837 * 1440 + 60))) = Raise ValueError)
      by (vm_compute; reflexivity).
    destruct (proj1 (C8_tick_failure_containment (utc_tick (18837 * 1440 + 60))
                       sent_with_abc (TriviaDB.mk_row 1 "abc") Hc) ValueError Hx)
      as (H1 & _ & H3).
    split; [exact H1 |]. apply H3. split; vm_compute; reflexivity.
  - assert (Hc : Trivia.config (Trivia.self (configured "09:00"))
                 = Some (TriviaDB.mk_row 1 "09:00")) by reflexivity.
    assert (Hs : Trivia._get_schedule (Some (TriviaDB.mk_row 1 "09:00")) (today channel_gone)
                 = Ok (mk_time 1 0 0 0)) by (vm_compute; reflexivity).
    assert (Ha : at_or_after_fire (mk_time 1 0 0 0) channel_gone)
      by (unfold at_or_after_fire; by_computation).
    assert (Hp : pending (Trivia.self (configured "09:00")) channel_gone)
      by (left; reflexivity).
    pose proof (proj2 (C8_tick_failure_containment channel_gone (configured "09:00")
                         (TriviaDB.mk_row 1 "09:00") Hc)
                  (mk_time 1 0 0 0) Hs Ha Hp) as H.
    exact (proj1 (proj2 (proj2 H))
             (mk_response 200 (Some (JArr [JObj [("fact", JStr "Bees can fly.")]])))
             eq_refl eq_refl).
Defined.

(** ** The commands *)

Lemma cog_load_coherent (c : Trivia.cog) : coherent (Trivia.cog_load c).
Proof. reflexivity. Qed.

Lemma commands_coherent (w : Trivia.world) (ch : channel_t) (sch : string) :
  coherent (Trivia.self w) ->
  coherent (Trivia.self (snd (Trivia.schedule sch w)))
  /\ coherent (Trivia.self (snd (Trivia.channel ch w)))
  /\ coherent (Trivia.self (snd (Trivia.setup ch sch w))).
Proof.
  unfold coherent. destruct w as [[st sd cf db] tr]. simpl. intros H.
  unfold Trivia.schedule, Trivia.channel, Trivia.setup, Trivia.bind, Trivia.gets. simpl.
  destruct cf as [c |]; simpl; auto.
Qed.

(** C9.  Frame.  With Config set (cached and stored row equal), the
    schedule command leaves [channel_id] at its prior value and stores
    the new schedule; the channel command leaves [schedule] at its prior
    value and stores the new channel.  Neither touches the dispatch
    state. *)
Theorem C9_command_frame (w : Trivia.world) (c : TriviaDB.row) :
  Trivia.config (Trivia.self w) = Some c ->
  Trivia.database (Trivia.self w) = Some c ->
  (forall sch,
      exists r,
        fst (Trivia.schedule sch w) = Ok tt
        /\ Trivia.config (Trivia.self (snd (Trivia.schedule sch w))) = Some r
        /\ Trivia.database (Trivia.self (snd (Trivia.schedule sch w))) = Some r
        /\ TriviaDB.channel_id r = TriviaDB.channel_id c
        /\ (Trivia._check_time sch = true -> TriviaDB.schedule r = sch)
        /\ Trivia.sent_today (Trivia.self (snd (Trivia.schedule sch w)))
           = Trivia.sent_today (Trivia.self w)
        /\ Trivia.sent_date (Trivia.self (snd (Trivia.schedule sch w)))
           = Trivia.sent_date (Trivia.self w))
  /\ (forall ch,
      exists r,
        fst (Trivia.channel ch w) = Ok tt
        /\ Trivia.config (Trivia.self (snd (Trivia.channel ch w))) = Some r
        /\ Trivia.database (Trivia.self (snd (Trivia.channel ch w))) = Some r
        /\ TriviaDB.schedule r = TriviaDB.schedule c
        /\ TriviaDB.channel_id r = ch
        /\ Trivia.sent_today (Trivia.self (snd (Trivia.channel ch w)))
           = Trivia.sent_today (Trivia.self w)
        /\ Trivia.sent_date (Trivia.self (snd (Trivia.channel ch w)))
           = Trivia.sent_date (Trivia.self w)).
Proof.
  destruct w as [[st sd cf db] tr]. simpl. intros -> ->. split.
  - intros sch. exists (TriviaDB.mk_row (TriviaDB.channel_id c) sch).
    unfold Trivia.schedule, Trivia.bind, Trivia.gets. simpl.
    repeat split.
  - intros ch. exists (TriviaDB.mk_row ch (TriviaDB.schedule c)).
    unfold Trivia.channel, Trivia.bind, Trivia.gets. simpl.
    repeat split.
Qed.

Lemma C9_command_frame_witness :
  (exists r,
      fst (Trivia.schedule "10:30" (configured "09:00")) = Ok tt
      /\ Trivia.config (Trivia.self (snd (Trivia.schedule "10:30" (configured "09:00"))))
         = Some r
      /\ Trivia.database (Trivia.self (snd (Trivia.schedule "10:30" (configured "09:00"))))
         = Some r
      /\ TriviaDB.channel_id r = TriviaDB.channel_id (TriviaDB.mk_row 1 "09:00")
      /\ (Trivia._check_time "10:30" = true -> TriviaDB.schedule r = "10:30")
      /\ Trivia.sent_today (Trivia.self (snd (Trivia.schedule "10:30" (configured "09:00"))))
         = Trivia.sent_today (Trivia.self (configured "09:00"))
      /\ Trivia.sent_date (Trivia.self (snd (Trivia.schedule "10:30" (configured "09:00"))))
         = Trivia.sent_date (Trivia.self (configured "09:00")))
  /\ (exists r,
      fst (Trivia.channel 7 (configured "09:00")) = Ok tt
      /\ Trivia.config (Trivia.self (snd (Trivia.channel 7 (configured "09:00")))) = Some r
      /\ Trivia.database (Trivia.self (snd (Trivia.channel 7 (configured "09:00")))) = Some r
      /\ TriviaDB.schedule r = TriviaDB.schedule (TriviaDB.mk_row 1 "09:00")
      /\ TriviaDB.channel_id r = 7
      /\ Trivia.sent_today (Trivia.self (snd (Trivia.channel 7 (configured "09:00"))))
         = Trivia.sent_today (Trivia.self (configured "09:00"))
      /\ Trivia.sent_date (Trivia.self (snd (Trivia.channel 7 (configured "09:00"))))
         = Trivia.sent_date (Trivia.self (configured "09:00"))).
Proof.
  pose proof (C9_command_frame (configured "09:00") (TriviaDB.mk_row 1 "09:00")
                eq_refl eq_refl) as [H1 H2].
  split; [exact (H1 "10:30") | exact (H2 7)].
Defined.

(** ** Validation in the commands *)

(** [_check_time] returns a [bool], which is never [None]: the commands'
    test [self._check_time(schedule) is None] is false for every text. *)
Lemma validation_never_rejects (sch : string) :
  py_is_None (PyBool (Trivia._check_time sch)) = false.
Proof. reflexivity. Qed.

(** C2, on the code.  [setup] with the malformed schedule [24:00] on an
    unset Config, and [schedule] with [abc] on a set Config, answer with
    the acknowledgement instead of the validation message and write the
    malformed text to the store. *)
Theorem C2_malformed_schedule_written :
  Trivia._check_time "24:00" = false
  /\ Trivia._check_time "abc" = false
  /\ Trivia.setup 5 "24:00" unconfigured
     = (Ok tt,
        Trivia.mk_world
          (Trivia.mk_cog false None (Some (TriviaDB.mk_row 5 "24:00"))
             (Some (TriviaDB.mk_row 5 "24:00")))
          [Respond "Trivia setup"])
  /\ Trivia.schedule "abc" (configured "09:00")
     = (Ok tt,
        Trivia.mk_world
          (Trivia.mk_cog false None (Some (TriviaDB.mk_row 1 "abc"))
             (Some (TriviaDB.mk_row 1 "abc")))
          [Respond "Trivia session scheduled at abc"]).
Proof. repeat split; vm_compute; reflexivity. Qed.

(** ** A clock that ticks every minute on a host in UTC *)

Lemma minute_ticks_app (mk : Z -> env) (a b : nat) :
  forall s,
    minute_ticks mk s (a + b)
    = minute_ticks mk s a ++ minute_ticks mk (s + Z.of_nat a) b.
Proof.
  induction a as [| a IH]; intros s.
  - simpl. now rewrite Z.add_0_r.
  - cbn [minute_ticks Nat.add app]. rewrite IH. do 2 f_equal. f_equal. lia.
Qed.

Lemma minute_ticks_Forall (P : env -> Prop) (mk : Z -> env) (n : nat) :
  forall s,
    (forall x, s <= x < s + Z.of_nat n -> P (mk x)) ->
    Forall P (minute_ticks mk s n).
Proof.
  induction n as [| n IH]; intros s H; cbn [minute_ticks]; constructor.
  - apply H. lia.
  - apply IH. intros x Hx. apply H. lia.
Qed.

(** At minute granularity the comparison of times is the comparison of
    minutes since midnight. *)
Lemma time_ge_minutes (x h m : Z) :
  0 <= h <= 23 -> 0 <= m <= 59 ->
  time_ge (dt_time (datetime_of_minutes x)) (mk_time h m 0 0)
  = (h * 60 + m <=? x mod 1440).
Proof.
  intros Hh Hm. unfold time_ge, time_cmp, datetime_of_minutes.
  cbn [dt_time hour minute second microsecond].
  assert (Ha : 0 <= x mod 1440 < 1440) by (apply Z.mod_pos_bound; lia).
  assert (Hx : x mod 60 = (x mod 1440) mod 60) by (Z.div_mod_to_equations; lia).
  rewrite Hx. set (a := x mod 1440) in *.
  destruct (Z.compare_spec (a / 60) h) as [E | E | E];
    [destruct (Z.compare_spec (a mod 60) m) as [E' | E' | E'] | |];
    cbn; destruct (Z.leb_spec (h * 60 + m) a) as [L | L]; try reflexivity;
    exfalso; Z.div_mod_to_equations; lia.
Qed.

(** On a host in UTC whose clock ticks every minute, with Config set to a
    valid schedule firing at minute [f] of the day: a run that starts at
    minute [s < f] of day [D] and ends before minute [f] of day [D + 1]
    sends exactly once, on the tick at minute [f] of day [D]. *)
Lemma minute_clock_fires_once (id h m D s : Z) (n : nat) (w : Trivia.world)
    (chans : Z -> option channel_t) (fetch : result response)
    (deliver : message -> option exn) (ch : channel_t) (fact : json) :
  let f := (h - 8) mod 24 * 60 + m in
  let mk := env_at 0 chans fetch deliver in
  0 <= h <= 23 -> 0 <= m <= 59 ->
  Trivia.config (Trivia.self w) = Some (TriviaDB.mk_row id (hhmm h m)) ->
  0 <= D <= 2000000 ->
  0 <= s < f ->
  f - s < Z.of_nat n <= 1440 + f - s ->
  pending (Trivia.self w) (mk (D * 1440 + f)) ->
  fetch_succeeds (mk (D * 1440 + f)) fact ->
  delivers (mk (D * 1440 + f)) id ch ->
  (exists w1,
      Trivia.run (minute_ticks mk (D * 1440 + s) (Z.to_nat (f - s))) w = (Ok tt, w1)
      /\ Trivia.trace w1 = Trivia.trace w)
  /\ (exists w3,
      Trivia.run (minute_ticks mk (D * 1440 + s) n) w = (Ok tt, w3)
      /\ Trivia.trace w3 = Trivia.trace w ++ success_events ch fact
      /\ Trivia.sent_date (Trivia.self w3) = Some (epoch_ordinal + D)).
Proof.
  intros f mk Hh Hm Hc HD Hs Hn Hp Hf Hd.
  assert (Hfh : 0 <= (h - 8) mod 24 <= 23) by (Z.div_mod_to_equations; lia).
  assert (Hf' : 0 <= f < 1440) by (subst f; lia).
  set (a := Z.to_nat (f - s)).
  set (b := Nat.min (n - a - 1) (Z.to_nat (1439 - f))).
  set (c := (n - a - 1 - b)%nat).
  assert (En : n = (a + S (b + c))%nat) by (subst a b c; lia).
  assert (Split : minute_ticks mk (D * 1440 + s) n
                  = minute_ticks mk (D * 1440 + s) a
                    ++ mk (D * 1440 + f)
                       :: minute_ticks mk (D * 1440 + f + 1) b
                          ++ minute_ticks mk (D * 1440 + f + 1 + Z.of_nat b) c).
  { rewrite En at 1. rewrite minute_ticks_app. cbn [minute_ticks].
    rewrite minute_ticks_app.
    replace (D * 1440 + s + Z.of_nat a) with (D * 1440 + f) by (subst a; lia).
    reflexivity. }
  assert (Date : forall x, dt_date (today (mk x)) = epoch_ordinal + x / 1440).
  { intros x. subst mk. unfold env_at, datetime_of_minutes. cbn [today dt_date].
    now rewrite Z.add_0_r. }
  assert (Tod : forall x, time_ge (dt_time (utcnow (mk x))) (fire_time h m)
                          = (f <=? x mod 1440)).
  { intros x. subst mk f. unfold env_at, fire_time. cbn [utcnow].
    now apply time_ge_minutes. }
  assert (Day : forall x, D * 1440 <= x < (D + 1) * 1440 -> x / 1440 = D)
    by (intros x Hx; Z.div_mod_to_equations; lia).
  assert (Today_t : dt_date (today (mk (D * 1440 + f))) = epoch_ordinal + D)
    by (rewrite Date, Day by lia; reflexivity).
  destruct (run_fires_once (TriviaDB.mk_row id (hhmm h m)) (fire_time h m) w
              (minute_ticks mk (D * 1440 + s) a) (mk (D * 1440 + f))
              (minute_ticks mk (D * 1440 + f + 1) b)
              (minute_ticks mk (D * 1440 + f + 1 + Z.of_nat b) c) ch fact)
    as (H1 & _ & H3); try assumption.
  - rewrite <- Split. apply minute_ticks_Forall. intros x Hx.
    apply get_schedule_hhmm; try assumption.
    unfold after_min_date, MAXORDINAL. rewrite Date. unfold epoch_ordinal.
    Z.div_mod_to_equations. lia.
  - apply minute_ticks_Forall. intros x Hx. unfold before_fire. rewrite Tod.
    apply Z.leb_gt. subst a. Z.div_mod_to_equations. lia.
  - unfold at_or_after_fire. rewrite Tod. apply Z.leb_le.
    Z.div_mod_to_equations. lia.
  - apply minute_ticks_Forall. intros x Hx. rewrite Today_t, Date, Day; [reflexivity |].
    subst b. lia.
  - apply minute_ticks_Forall. intros x Hx.
    assert (Hc0 : (0 < c)%nat) by lia.
    assert (Hb : Z.of_nat b = 1439 - f) by (subst c b; lia).
    assert (Hx' : (D + 1) * 1440 <= x < (D + 1) * 1440 + f) by (subst c b a; lia).
    split.
    + rewrite Today_t, Date. unfold epoch_ordinal. Z.div_mod_to_equations. lia.
    + unfold before_fire. rewrite Tod. apply Z.leb_gt.
      Z.div_mod_to_equations. lia.
  - split.
    + exact H1.
    + destruct H3 as (w3 & R & T & Sd & _). exists w3.
      rewrite Split. rewrite Sd, Today_t. auto.
Qed.

(** ** Every outcome of a tick *)

(** A tick with Config unset changes nothing; with Config set it leaves
    the cog as the rollover reset made it, unless the whole send sequence
    succeeded, in which case the send is recorded for the date the tick
    observes. *)
Lemma tick_cases (e : env) (w : Trivia.world) :
  (Trivia.config (Trivia.self w) = None /\ Trivia.trivia_loop e w = (Ok tt, w))
  \/ (Trivia.config (Trivia.self w) <> None
      /\ Trivia.self (snd (Trivia.trivia_loop e w)) = after_reset e (Trivia.self w))
  \/ (Trivia.config (Trivia.self w) <> None
      /\ exists ch fact,
          Trivia.trivia_loop e w
          = (Ok tt, Trivia.mk_world (mark_sent e (after_reset e (Trivia.self w)))
                      (Trivia.trace w ++ success_events ch fact))).
Proof.
  destruct (Trivia.config (Trivia.self w)) as [c |] eqn:Hc.
  2: { left. split; [reflexivity | now apply tick_unset]. }
  right. rewrite (tick_set e w c Hc).
  unfold Trivia.dispatch, Trivia.bind.
  destruct (Trivia._get_schedule (Some c) (today e)) as [ft | x]; simpl.
  2: { left. split; [discriminate | reflexivity]. }
  destruct (time_ge (dt_time (utcnow e)) ft); simpl.
  2: { left. split; [discriminate | reflexivity]. }
  destruct (Trivia.sent_today (after_reset e (Trivia.self w))); simpl.
  1: { left. split; [discriminate | reflexivity]. }
  unfold Trivia.send_sequence, Trivia.bind, Trivia.emit, Trivia.lift, Trivia.ret,
    Trivia.raise, Trivia.send, Trivia.modify; simpl.
  destruct (requests_get e) as [resp | x]; simpl.
  2: { left. split; [discriminate | reflexivity]. }
  destruct (status_code resp =? 200); simpl.
  2: { left. split; [discriminate |].
       destruct (get_channel e (TriviaDB.channel_id c)) as [ch |]; simpl;
         [| reflexivity].
       unfold Trivia.bind, Trivia.emit; simpl.
       destruct (channel_send e _); reflexivity. }
  destruct (response_json resp) as [j | x]; simpl.
  2: { left. split; [discriminate | reflexivity]. }
  destruct (getitem_0 j) as [first | x]; simpl.
  2: { left. split; [discriminate | reflexivity]. }
  destruct (getitem_str first "fact") as [fact | x]; simpl.
  2: { left. split; [discriminate | reflexivity]. }
  destruct (get_channel e (TriviaDB.channel_id c)) as [ch |]; simpl.
  2: { left. split; [discriminate | reflexivity]. }
  unfold Trivia.bind, Trivia.emit; simpl.
  destruct (channel_send e _) eqn:Hd; simpl.
  - left. split; [discriminate | reflexivity].
  - right. split; [discriminate |]. exists ch, fact.
    unfold mark_sent, success_events. rewrite <- app_assoc. reflexivity.
Qed.

(** ** Day rollover *)

(** C3, as stated, fails: the date recorded with the flag is the one
    [datetime.today()] returns, the local date of the host, and that is
    not the UTC date on a host whose zone is not UTC. *)
Lemma C3_utc_date_counterexample :
  Trivia.config (Trivia.self (configured "09:00")) <> None
  /\ Trivia.sent_today
       (Trivia.self (snd (Trivia.trivia_loop manila_evening (configured "09:00")))) = true
  /\ Trivia.sent_date
       (Trivia.self (snd (Trivia.trivia_loop manila_evening (configured "09:00"))))
     <> Some (dt_date (utcnow manila_evening)).
Proof.
  split; [discriminate |]. split; [vm_compute; reflexivity |].
  vm_compute. discriminate.
Qed.

(** C3 (amended).  Day-rollover reset.  On a tick taken with Config set,
    [sent_today = true] and [sent_date = D], if the date the tick reads
    from [datetime.today()] differs from [D], the rest of the tick (the
    fire-time comparison onwards) runs with [sent_today] already false.
    [sent_date] changes only on a tick whose whole send sequence
    succeeded, and after a tick taken with Config set, whenever
    [sent_today] is true the recorded [sent_date] is the date that tick
    read from [datetime.today()]. *)
Theorem C3_day_rollover_reset (e : env) (w : Trivia.world) :
  (forall c D,
      Trivia.config (Trivia.self w) = Some c ->
      Trivia.sent_today (Trivia.self w) = true ->
      Trivia.sent_date (Trivia.self w) = Some D ->
      dt_date (today e) <> D ->
      Trivia.trivia_loop e w
      = Trivia.dispatch e c
          (Trivia.mk_world (Trivia.set_sent_today false (Trivia.self w)) (Trivia.trace w)))
  /\ (Trivia.sent_date (Trivia.self (snd (Trivia.trivia_loop e w)))
      <> Trivia.sent_date (Trivia.self w) ->
      exists ch fact,
        Trivia.trivia_loop e w
        = (Ok tt, Trivia.mk_world (mark_sent e (after_reset e (Trivia.self w)))
                    (Trivia.trace w ++ success_events ch fact)))
  /\ (Trivia.config (Trivia.self w) <> None ->
      Trivia.sent_today (Trivia.self (snd (Trivia.trivia_loop e w))) = true ->
      Trivia.sent_date (Trivia.self (snd (Trivia.trivia_loop e w)))
      = Some (dt_date (today e))).
Proof.
  split; [| split].
  - intros c D Hc Ht Hd Hne. rewrite (tick_set e w c Hc).
    rewrite after_reset_other_day; [reflexivity |].
    rewrite Hd. intros E. inversion E. congruence.
  - intros Hch. destruct (tick_cases e w) as [[_ H] | [[_ H] | [_ H]]].
    + rewrite H in Hch. contradiction.
    + rewrite H in Hch. destruct (after_reset_fields e (Trivia.self w)) as (Fd & _).
      contradiction.
    + exact H.
  - intros Hc Ht. destruct (tick_cases e w) as [[H _] | [[_ H] | [_ (ch & fact & H)]]].
    + contradiction.
    + rewrite H in *. unfold after_reset, Trivia.date_ne in *.
      destruct (Trivia.sent_date (Trivia.self w)) as [d |] eqn:Ed.
      * destruct (dt_date (today e) =? d) eqn:E; simpl in *.
        -- apply Z.eqb_eq in E. congruence.
        -- discriminate.
      * simpl in Ht. discriminate.
    + rewrite H. reflexivity.
Qed.

(** A cog that recorded a send on day 738000, ticking on a later day. *)
Lemma C3_day_rollover_reset_witness :
  Trivia.trivia_loop manila_evening sent_on_738000
  = Trivia.dispatch manila_evening (TriviaDB.mk_row 1 "09:00")
      (Trivia.mk_world (Trivia.set_sent_today false (Trivia.self sent_on_738000))
         (Trivia.trace sent_on_738000)).
Proof.
  apply (proj1 (C3_day_rollover_reset manila_evening sent_on_738000)
           (TriviaDB.mk_row 1 "09:00") 738000).
  - reflexivity.
  - reflexivity.
  - reflexivity.
  - vm_compute. discriminate.
Defined.

(** * Further properties of the cog *)

(** ** What [strptime] reads *)

(** Whatever the matcher returns was produced by its continuation at a
    position the pattern leads to. *)
Lemma rmatch_sound (A : Type) (r : Re.regex) :
  forall (st : Re.mstate) (k : Re.mstate -> option A) (x : A),
    Re.rmatch r st k = Some x ->
    exists st', Re.sem r st st' /\ k st' = Some x.
Proof.
  induction r as [c | lo hi | r1 IH1 r2 IH2 | r1 IH1 r2 IH2 | r1 IH1 | | | name r1 IH1];
    intros [i s cs] k x; simpl.
  - destruct s as [| c' s']; [discriminate |].
    destruct (Ascii.eqb c c') eqn:E; [| discriminate].
    apply Ascii.eqb_eq in E; subst c'. intros H.
    eexists; split; [constructor | exact H].
  - destruct s as [| c' s']; [discriminate |].
    destruct (Re.in_class lo hi c') eqn:E; [| discriminate].
    intros H. eexists; split; [constructor; exact E | exact H].
  - intros H. apply IH1 in H. destruct H as (st1 & H1 & H2).
    apply IH2 in H2. destruct H2 as (st2 & H2 & Hk).
    exists st2. split; [econstructor; eassumption | exact Hk].
  - destruct (Re.rmatch r1 _ k) eqn:E1.
    + intros H. inversion H; subst. apply IH1 in E1. destruct E1 as (st' & H1 & Hk).
      exists st'. split; [apply Re.sem_alt_l; exact H1 | exact Hk].
    + intros H. apply IH2 in H. destruct H as (st' & H1 & Hk).
      exists st'. split; [apply Re.sem_alt_r; exact H1 | exact Hk].
  - destruct (Re.rmatch r1 _ k) eqn:E1.
    + intros H. inversion H; subst. apply IH1 in E1. destruct E1 as (st' & H1 & Hk).
      exists st'. split; [apply Re.sem_opt_some; exact H1 | exact Hk].
    + intros H. eexists. split; [apply Re.sem_opt_none | exact H].
  - destruct (Nat.eqb i 0) eqn:E; [| discriminate].
    apply Nat.eqb_eq in E. intros H.
    eexists. split; [apply Re.sem_bol; exact E | exact H].
  - destruct (Re.at_end s) eqn:E; [| discriminate].
    intros H. eexists. split; [apply Re.sem_eol; exact E | exact H].
  - intros H. apply IH1 in H. destruct H as (st1 & H1 & Hk).
    eexists. split; [apply Re.sem_group; exact H1 | exact Hk].
Qed.

Lemma py_int_one (c : ascii) :
  (48 <= nat_of_ascii c <= 57)%nat ->
  py_int (String c EmptyString) = Ok (digit_of c).
Proof.
  intros H. unfold py_int, digits_value.
  assert (E : Re.in_class "0" "9" c = true) by (apply in_class_bounds; cbn; lia).
  rewrite E. unfold digit_of. f_equal; try lia.
Qed.

Lemma py_int_two (c1 c2 : ascii) :
  (48 <= nat_of_ascii c1 <= 57)%nat -> (48 <= nat_of_ascii c2 <= 57)%nat ->
  py_int (String c1 (String c2 EmptyString)) = Ok (10 * digit_of c1 + digit_of c2).
Proof.
  intros H1 H2. unfold py_int, digits_value.
  assert (E1 : Re.in_class "0" "9" c1 = true) by (apply in_class_bounds; cbn; lia).
  assert (E2 : Re.in_class "0" "9" c2 = true) by (apply in_class_bounds; cbn; lia).
  rewrite E1, E2. unfold digit_of. f_equal; try lia.
Qed.

Lemma digits_of_one (c : ascii) :
  (48 <= nat_of_ascii c <= 57)%nat -> digits_of (String c EmptyString) (digit_of c).
Proof.
  intros H. split; [now apply py_int_one |].
  left. split; [unfold digit_of; lia |].
  unfold one_digit. now rewrite digit_char_of by lia.
Qed.

Lemma digits_of_two (c1 c2 : ascii) :
  (48 <= nat_of_ascii c1 <= 57)%nat -> (48 <= nat_of_ascii c2 <= 57)%nat ->
  digits_of (String c1 (String c2 EmptyString)) (10 * digit_of c1 + digit_of c2).
Proof.
  intros H1 H2. split; [now apply py_int_two |].
  right. rewrite two_digits_pair by (unfold digit_of; lia).
  now rewrite !digit_char_of by lia.
Qed.

Lemma string_length_app (a b : string) :
  String.length (a ++ b)%string = (String.length a + String.length b)%nat.
Proof. induction a as [| c a IH]; simpl; [reflexivity | now rewrite IH]. Qed.

Lemma substring_0_0 (s : string) : substring 0 0 s = EmptyString.
Proof. destruct s; reflexivity. Qed.

Ltac number_of t :=
  lazymatch t with
  | String ?a (String ?b EmptyString) => constr:(10 * digit_of a + digit_of b)
  | String ?a EmptyString => constr:(digit_of a)
  end.

Ltac digit_bounds :=
  try change (nat_of_ascii "2") with 50%nat;
  try change (digit_of "2") with 2;
  unfold digit_of; lia.

Lemma strptime_regex_inv (s : string) (found : Re.mstate) :
  Re.sem strptime_regex (Re.mk_mstate 0 s []) found ->
  exists hs ms h m,
    s = (hs ++ ":" ++ ms ++ Re.rest found)%string
    /\ Re.pos found = (String.length hs + 1 + String.length ms)%nat
    /\ Re.caps found = [("M", ms); ("H", hs)]
    /\ 0 <= h <= 23 /\ 0 <= m <= 59
    /\ digits_of hs h /\ digits_of ms m.
Proof.
  intros H. unfold strptime_regex, Digit in H. invert_sem; class_bounds.
  all: rewrite substring_0_0.
  all: lazymatch goal with
       | |- exists hs ms h m, _ /\ _ /\ [("M", ?M); ("H", ?Hs)] = _ /\ _ =>
           let h := number_of Hs in
           let m := number_of M in
           exists Hs, M, h, m
       end.
  all: split; [reflexivity |]; split; [reflexivity |]; split; [reflexivity |].
  all: split; [digit_bounds |]; split; [digit_bounds |].
  all: split; first [apply digits_of_two | apply digits_of_one]; digit_bounds.
Qed.

(** [strptime] either raises [ValueError] or reads a text that spells an
    hour 0-23 and a minute 0-59, each with one or two digits. *)
Lemma strptime_cases (s : string) :
  strptime s = Raise ValueError
  \/ exists h m,
       0 <= h <= 23 /\ 0 <= m <= 59 /\ spells s h m
       /\ strptime s = Ok (mk_datetime strptime_default_date (mk_time h m 0 0)).
Proof.
  unfold strptime.
  destruct (Re.re_match strptime_regex s) as [found |] eqn:E; [| now left].
  unfold Re.re_match in E. apply rmatch_sound in E. destruct E as (st' & H & E).
  inversion E; subst st'; clear E.
  apply strptime_regex_inv in H.
  destruct H as (hs & ms & h & m & Hs & Hp & Hc & Hh & Hm & [Ih Th] & [Im Tm]).
  unfold Re.match_end. rewrite Hp, Hc.
  destruct (negb (String.length s =? String.length hs + 1 + String.length ms)%nat) eqn:El;
    [now left |].
  right. exists h, m. split; [exact Hh |]. split; [exact Hm |].
  apply negb_false_iff, Nat.eqb_eq in El.
  assert (Hrest : Re.rest found = EmptyString).
  { rewrite Hs in El. rewrite string_length_app in El. simpl in El.
    rewrite string_length_app in El.
    destruct (Re.rest found); [reflexivity | simpl in El; lia]. }
  rewrite Hrest in Hs.
  split.
  - unfold spells, hhmm, hmm, hhm, hm.
    destruct Th as [[Hh9 ->] | ->]; destruct Tm as [[Hm9 ->] | ->]; subst s;
      unfold one_digit, two_digits; simpl.
    + right. right. right. repeat split; lia.
    + right. left. split; [lia | reflexivity].
    + right. right. left. split; [lia | reflexivity].
    + left. reflexivity.
  - simpl. rewrite Ih, Im. reflexivity.
Qed.

Lemma parses_hmm_all :
  forallb (fun h => forallb (fun m => parses_to (hmm h m) h m) (map Z.of_nat (seq 0 60)))
    (map Z.of_nat (seq 0 10)) = true.
Proof. vm_compute. reflexivity. Qed.

Lemma parses_hhm_all :
  forallb (fun h => forallb (fun m => parses_to (hhm h m) h m) (map Z.of_nat (seq 0 10)))
    (map Z.of_nat (seq 0 24)) = true.
Proof. vm_compute. reflexivity. Qed.

Lemma parses_hm_all :
  forallb (fun h => forallb (fun m => parses_to (hm h m) h m) (map Z.of_nat (seq 0 10)))
    (map Z.of_nat (seq 0 10)) = true.
Proof. vm_compute. reflexivity. Qed.

Lemma strptime_spells (s : string) (h m : Z) :
  0 <= h <= 23 -> 0 <= m <= 59 -> spells s h m ->
  strptime s = Ok (mk_datetime strptime_default_date (mk_time h m 0 0)).
Proof.
  intros Hh Hm [-> | [[Hh9 ->] | [[Hm9 ->] | (Hh9 & Hm9 & ->)]]].
  - now apply strptime_hhmm.
  - apply parses_to_spec.
    pose proof (@forallb_below _ 10 parses_hmm_all h ltac:(lia)) as H. cbv beta in H.
    exact (@forallb_below _ 60 H m ltac:(lia)).
  - apply parses_to_spec.
    pose proof (@forallb_below _ 24 parses_hhm_all h ltac:(lia)) as H. cbv beta in H.
    exact (@forallb_below _ 10 H m ltac:(lia)).
  - apply parses_to_spec.
    pose proof (@forallb_below _ 10 parses_hm_all h ltac:(lia)) as H. cbv beta in H.
    exact (@forallb_below _ 10 H m ltac:(lia)).
Qed.

Lemma get_schedule_of_strptime (id h m : Z) (s : string) (now : datetime) :
  0 <= h <= 23 -> 0 <= m <= 59 -> after_min_date now ->
  strptime s = Ok (mk_datetime strptime_default_date (mk_time h m 0 0)) ->
  Trivia._get_schedule (Some (TriviaDB.mk_row id s)) now = Ok (fire_time h m).
Proof.
  intros Hh Hm Hd Hs. unfold Trivia._get_schedule. cbn [TriviaDB.schedule].
  rewrite Hs. cbn [dt_time]. destruct now as [d t0].
  destruct (datetime_sub_8h d h m t0 Hh Hm Hd) as (d' & E & _).
  rewrite E. reflexivity.
Qed.

(** X1.  What [_get_schedule] reads.  With Config set and a current
    date after 0001-01-01: for every stored text that spells an hour [h]
    in 0-23 and a minute [m] in 0-59 with one or two of the digits [0-9]
    each, [_get_schedule] returns [(h - 8) mod 24 : m]; and on any stored
    text it raises [ValueError] or returns the fire time of an hour in
    0-23 and a minute in 0-59, never another exception. *)
Theorem get_schedule_reads (id : Z) (s : string) (now : datetime) :
  after_min_date now ->
  (forall h m, 0 <= h <= 23 -> 0 <= m <= 59 -> spells s h m ->
     Trivia._get_schedule (Some (TriviaDB.mk_row id s)) now = Ok (fire_time h m))
  /\ (Trivia._get_schedule (Some (TriviaDB.mk_row id s)) now = Raise ValueError
      \/ exists h m,
           0 <= h <= 23 /\ 0 <= m <= 59
           /\ Trivia._get_schedule (Some (TriviaDB.mk_row id s)) now = Ok (fire_time h m)).
Proof.
  intros Hd. split.
  - intros h m Hh Hm Hs. apply get_schedule_of_strptime; try assumption.
    now apply strptime_spells.
  - destruct (strptime_cases s) as [E | (h & m & Hh & Hm & Hs & E)].
    + left. unfold Trivia._get_schedule. cbn [TriviaDB.schedule]. now rewrite E.
    + right. exists h, m. split; [exact Hh |]. split; [exact Hm |].
      now apply get_schedule_of_strptime.
Qed.

(** The stored text 9:5 on day 738000. *)
Lemma get_schedule_reads_witness :
  (forall h m, 0 <= h <= 23 -> 0 <= m <= 59 -> spells "9:5" h m ->
     Trivia._get_schedule (Some (TriviaDB.mk_row 1 "9:5"))
       (mk_datetime 738000 (mk_time 12 0 0 0)) = Ok (fire_time h m))
  /\ (Trivia._get_schedule (Some (TriviaDB.mk_row 1 "9:5"))
        (mk_datetime 738000 (mk_time 12 0 0 0)) = Raise ValueError
      \/ exists h m,
           0 <= h <= 23 /\ 0 <= m <= 59
           /\ Trivia._get_schedule (Some (TriviaDB.mk_row 1 "9:5"))
                (mk_datetime 738000 (mk_time 12 0 0 0)) = Ok (fire_time h m)).
Proof.
  apply (get_schedule_reads 1 "9:5" (mk_datetime 738000 (mk_time 12 0 0 0))).
  unfold after_min_date. by_computation.
Defined.

Lemma digit_char_not_newline (d : Z) :
  0 <= d <= 9 -> Ascii.eqb (digit_char d) Re.newline = false.
Proof.
  intros Hd. destruct (Ascii.eqb (digit_char d) Re.newline) eqn:E; [| reflexivity].
  exfalso. apply Ascii.eqb_eq in E.
  apply (f_equal nat_of_ascii) in E. unfold digit_char in E.
  rewrite nat_ascii_embedding in E by lia.
  change (nat_of_ascii Re.newline) with 10%nat in E. lia.
Qed.

Lemma spells_no_newline (s : string) (h m : Z) :
  0 <= m <= 59 -> spells s h m -> ends_with_newline s = false.
Proof.
  intros Hm Hs.
  assert (Hmod : 0 <= m mod 10 <= 9) by (Z.div_mod_to_equations; lia).
  destruct Hs as [-> | [[Hh9 ->] | [[Hm9 ->] | (Hh9 & Hm9 & ->)]]];
    unfold hhmm, hmm, hhm, hm, one_digit, two_digits; simpl;
    apply digit_char_not_newline; lia.
Qed.

(** X2.  Every text [_check_time] accepts that does not end in a line
    feed is one [_get_schedule] can read: with such a schedule stored it
    returns a time of day, with the hour in 0-23 and the minute in 0-59. *)
Theorem accepted_schedule_is_readable (id : Z) (s : string) (now : datetime) :
  Trivia._check_time s = true ->
  ends_with_newline s = false ->
  after_min_date now ->
  exists t,
    Trivia._get_schedule (Some (TriviaDB.mk_row id s)) now = Ok t
    /\ 0 <= hour t <= 23 /\ 0 <= minute t <= 59
    /\ second t = 0 /\ microsecond t = 0.
Proof.
  intros Hc Hn Hd. apply check_time_inv in Hc.
  destruct Hc as (h & m & tail & Hh & Hm & Ht & Hs).
  apply at_end_cases in Ht.
  assert (Hsp : spells s h m).
  { destruct Ht as [-> | ->].
    - destruct Hs as [-> | [Hh9 ->]].
      + left. unfold hhmm, two_digits. reflexivity.
      + right. left. split; [lia |]. unfold hmm, one_digit, two_digits. reflexivity.
    - exfalso. destruct Hs as [-> | [Hh9 ->]].
      + destruct (ends_with_newline_hhmm h m) as [_ E]. congruence.
      + destruct (ends_with_newline_hmm h m) as [_ E]. congruence. }
  exists (fire_time h m). split.
  - apply get_schedule_of_strptime; try assumption. now apply strptime_spells.
  - unfold fire_time. simpl.
    assert (0 <= (h - 8) mod 24 <= 23) by (Z.div_mod_to_equations; lia).
    repeat split; lia.
Qed.

Lemma accepted_schedule_is_readable_witness :
  exists t,
    Trivia._get_schedule (Some (TriviaDB.mk_row 1 "1:24"))
      (mk_datetime 738000 (mk_time 12 0 0 0)) = Ok t
    /\ 0 <= hour t <= 23 /\ 0 <= minute t <= 59
    /\ second t = 0 /\ microsecond t = 0.
Proof.
  apply (accepted_schedule_is_readable 1 "1:24" (mk_datetime 738000 (mk_time 12 0 0 0))).
  - vm_compute. reflexivity.
  - vm_compute. reflexivity.
  - unfold after_min_date. by_computation.
Defined.

(** X3.  Every text [_check_time] accepts that ends in a line feed is one
    [strptime] refuses: with such a schedule stored, [_get_schedule]
    raises [ValueError] whatever the date. *)
Theorem accepted_newline_is_unreadable (id : Z) (s : string) (now : datetime) :
  Trivia._check_time s = true ->
  ends_with_newline s = true ->
  Trivia._get_schedule (Some (TriviaDB.mk_row id s)) now = Raise ValueError.
Proof.
  intros Hc Hn. unfold Trivia._get_schedule. cbn [TriviaDB.schedule].
  destruct (strptime_cases s) as [E | (h & m & Hh & Hm & Hs & E)].
  - now rewrite E.
  - exfalso. rewrite (spells_no_newline s h m Hm Hs) in Hn. discriminate.
Qed.

Lemma accepted_newline_is_unreadable_witness :
  Trivia._get_schedule
    (Some (TriviaDB.mk_row 1 (hhmm 9 0 ++ String Re.newline EmptyString)))
    (mk_datetime 738000 (mk_time 12 0 0 0))
  = Raise ValueError.
Proof.
  apply (accepted_newline_is_unreadable 1 (hhmm 9 0 ++ String Re.newline EmptyString)
           (mk_datetime 738000 (mk_time 12 0 0 0))).
  - apply check_time_hhmm; [lia | lia | vm_compute; reflexivity].
  - apply ends_with_newline_hhmm.
Defined.

(** ** The fire time has no seconds *)

(** Eight hours back from [h:m:00] on any day: the same time of day as in
    [datetime_sub_8h], unless the day leaves the range of [date]. *)
Lemma datetime_sub_8h_cases (d h m : Z) (t0 : time) :
  0 <= h <= 23 -> 0 <= m <= 59 ->
  datetime_sub (datetime_combine (mk_datetime d t0) (mk_time h m 0 0))
    (timedelta_new 0 8 0 0 0) = Raise OverflowError
  \/ exists d',
       datetime_sub (datetime_combine (mk_datetime d t0) (mk_time h m 0 0))
         (timedelta_new 0 8 0 0 0)
       = Ok (mk_datetime d' (fire_time h m)).
Proof.
  intros Hh Hm.
  unfold datetime_sub. rewrite timedelta_8h_neg.
  unfold datetime_add, datetime_combine.
  cbn [dt_date dt_time hour minute second microsecond].
  rewrite timedelta_new_time by assumption.
  unfold timedelta_add.
  cbn [td_days td_seconds td_microseconds].
  change (0 + 0) with 0. rewrite timedelta_new_secs.
  cbn [td_days td_seconds td_microseconds].
  set (s := h * 3600 + m * 60 + 57600).
  assert (Hs : s mod 86400 = ((h - 8) mod 24) * 3600 + m * 60)
    by (subst s; Z.div_mod_to_equations; lia).
  rewrite Hs.
  assert (Hr : 0 <= (h - 8) mod 24 <= 23) by (Z.div_mod_to_equations; lia).
  unfold fire_time.
  set (h' := (h - 8) mod 24) in *.
  replace ((h' * 3600 + m * 60) / 3600) with h' by (Z.div_mod_to_equations; lia).
  replace ((h' * 3600 + m * 60) mod 3600) with (m * 60) by (Z.div_mod_to_equations; lia).
  replace (m * 60 / 60) with m by (Z.div_mod_to_equations; lia).
  replace ((m * 60) mod 60) with 0 by (Z.div_mod_to_equations; lia).
  destruct ((0 <? d + -1 + s / 86400) && (d + -1 + s / 86400 <=? MAXORDINAL)).
  - right. eexists. reflexivity.
  - now left.
Qed.

(** Whatever the stored text and the date, [_get_schedule] raises
    [ValueError] or [OverflowError], or returns the fire time of an hour
    and a minute in range: a time with no seconds. *)
Lemma get_schedule_cases (c : TriviaDB.row) (now : datetime) :
  Trivia._get_schedule (Some c) now = Raise ValueError
  \/ Trivia._get_schedule (Some c) now = Raise OverflowError
  \/ exists h m,
       0 <= h <= 23 /\ 0 <= m <= 59 /\ spells (TriviaDB.schedule c) h m
       /\ Trivia._get_schedule (Some c) now = Ok (fire_time h m).
Proof.
  unfold Trivia._get_schedule.
  destruct (strptime_cases (TriviaDB.schedule c)) as [E | (h & m & Hh & Hm & Hs & E)];
    rewrite E.
  - now left.
  - cbn [dt_time]. destruct now as [d t0].
    destruct (datetime_sub_8h_cases d h m t0 Hh Hm) as [E' | (d' & E')]; rewrite E'.
    + right. now left.
    + right. right. exists h, m. repeat split; try assumption; try lia.
Qed.

Lemma time_ge_fire (t : time) (h m : Z) :
  0 <= second t -> 0 <= microsecond t ->
  time_ge t (fire_time h m)
  = time_ge (mk_time (hour t) (minute t) 0 0) (fire_time h m).
Proof.
  intros Hs Hu. unfold time_ge, time_cmp, fire_time.
  cbn [hour minute second microsecond].
  destruct (hour t ?= (h - 8) mod 24); try reflexivity.
  destruct (minute t ?= m); try reflexivity.
  destruct (Z.compare_spec (second t) 0) as [E | E | E]; [| lia |].
  - destruct (Z.compare_spec (microsecond t) 0); simpl; try reflexivity; lia.
  - simpl. reflexivity.
Qed.

(** X4.  The seconds and microseconds of the UTC clock never matter: two
    ticks that differ only in the seconds and microseconds that
    [datetime.utcnow()] reads do the same, whatever the cog and the
    stored schedule. *)
Theorem tick_ignores_seconds (e e' : env) (w : Trivia.world) :
  today e' = today e ->
  get_channel e' = get_channel e ->
  requests_get e' = requests_get e ->
  channel_send e' = channel_send e ->
  hour (dt_time (utcnow e')) = hour (dt_time (utcnow e)) ->
  minute (dt_time (utcnow e')) = minute (dt_time (utcnow e)) ->
  0 <= second (dt_time (utcnow e)) -> 0 <= microsecond (dt_time (utcnow e)) ->
  0 <= second (dt_time (utcnow e')) -> 0 <= microsecond (dt_time (utcnow e')) ->
  Trivia.trivia_loop e' w = Trivia.trivia_loop e w.
Proof.
  intros Ht Hg Hr Hc Hh Hm Hs Hu Hs' Hu'.
  destruct (Trivia.config (Trivia.self w)) as [c |] eqn:Hcfg.
  2: { now rewrite !tick_unset by assumption. }
  rewrite (tick_set e w c Hcfg), (tick_set e' w c Hcfg).
  assert (Hreset : after_reset e' (Trivia.self w) = after_reset e (Trivia.self w))
    by (unfold after_reset; now rewrite Ht).
  rewrite Hreset. unfold Trivia.dispatch, Trivia.bind. rewrite Ht.
  destruct (get_schedule_cases c (today e)) as [E | [E | (h & m & _ & _ & _ & E)]];
    rewrite E; simpl; try reflexivity.
  rewrite (time_ge_fire (dt_time (utcnow e')) h m Hs' Hu').
  rewrite (time_ge_fire (dt_time (utcnow e)) h m Hs Hu).
  rewrite Hh, Hm.
  destruct (time_ge _ _); simpl; [| reflexivity].
  destruct (Trivia.sent_today _); [reflexivity |].
  unfold Trivia.send_sequence, Trivia.bind, Trivia.send.
  rewrite Hg, Hr, Hc, Ht. reflexivity.
Qed.

(** 01:00:00 and 01:00:59.999999 UTC of one day, schedule 09:00. *)
Lemma tick_ignores_seconds_witness :
  Trivia.trivia_loop (later_in_minute 59 999999 (utc_tick (19000 * 1440 + 60)))
    (configured "09:00")
  = Trivia.trivia_loop (utc_tick (19000 * 1440 + 60)) (configured "09:00").
Proof.
  apply (tick_ignores_seconds (utc_tick (19000 * 1440 + 60))
           (later_in_minute 59 999999 (utc_tick (19000 * 1440 + 60)))
           (configured "09:00")).
  - reflexivity.
  - reflexivity.
  - reflexivity.
  - reflexivity.
  - reflexivity.
  - reflexivity.
  - vm_compute. discriminate.
  - vm_compute. discriminate.
  - vm_compute. discriminate.
  - vm_compute. discriminate.
Defined.

(** ** What a tick calls *)

Lemma world_eta (w : Trivia.world) :
  Trivia.mk_world (Trivia.self w) (Trivia.trace w ++ []) = w.
Proof. destruct w as [s tr]. simpl. now rewrite app_nil_r. Qed.

(** Every outcome of a tick, with the calls it made: none, the request
    alone, or the request and one message to the configured channel.  The
    cog is left as it was or as the rollover reset made it, and then the
    tick posted no trivia or raised; or the send is recorded. *)
Lemma tick_outcome (e : env) (w : Trivia.world) :
  exists r s' tr,
    Trivia.trivia_loop e w = (r, Trivia.mk_world s' (Trivia.trace w ++ tr))
    /\ (tr = [] \/ tr = [HttpGet Trivia.api_url]
        \/ exists c ch msg,
             Trivia.config (Trivia.self w) = Some c
             /\ get_channel e (TriviaDB.channel_id c) = Some ch
             /\ tr = [HttpGet Trivia.api_url; ChannelSend ch msg])
    /\ (((s' = Trivia.self w \/ s' = after_reset e (Trivia.self w))
         /\ (count_events is_success_notice tr = 0%nat \/ exists x, r = Raise x))
        \/ (r = Ok tt /\ s' = mark_sent e (after_reset e (Trivia.self w))
            /\ exists ch fact, tr = success_events ch fact)).
Proof.
  destruct (Trivia.config (Trivia.self w)) as [c |] eqn:Hc.
  2: { exists (Ok tt), (Trivia.self w), []. rewrite world_eta.
       split; [now apply tick_unset |]. split; [now left |].
       left. split; [now left | now left]. }
  rewrite (tick_set e w c Hc).
  unfold Trivia.dispatch, Trivia.bind.
  destruct (Trivia._get_schedule (Some c) (today e)) as [ft | x]; simpl.
  2: { exists (Raise x), (after_reset e (Trivia.self w)), []. rewrite app_nil_r.
       split; [reflexivity |]. split; [now left |].
       left. split; [now right | now left]. }
  destruct (time_ge (dt_time (utcnow e)) ft); simpl.
  2: { exists (Ok tt), (after_reset e (Trivia.self w)), []. rewrite app_nil_r.
       split; [reflexivity |]. split; [now left |].
       left. split; [now right | now left]. }
  destruct (Trivia.sent_today (after_reset e (Trivia.self w))); simpl.
  1: { exists (Ok tt), (after_reset e (Trivia.self w)), []. rewrite app_nil_r.
       split; [reflexivity |]. split; [now left |].
       left. split; [now right | now left]. }
  unfold Trivia.send_sequence, Trivia.bind, Trivia.emit, Trivia.lift, Trivia.ret,
    Trivia.raise, Trivia.send, Trivia.modify; simpl.
  destruct (requests_get e) as [resp | x]; simpl.
  2: { exists (Raise x), (after_reset e (Trivia.self w)), [HttpGet Trivia.api_url].
       split; [reflexivity |]. split; [right; now left |].
       left. split; [now right | now left]. }
  destruct (status_code resp =? 200); simpl.
  2: { destruct (get_channel e (TriviaDB.channel_id c)) as [ch |] eqn:Hch; simpl.
       - unfold Trivia.bind, Trivia.emit; simpl.
         exists (match channel_send e (Content (Trivia.error_text (status_code resp))) with
                 | None => Ok tt
                 | Some err => Raise err
                 end), (after_reset e (Trivia.self w)),
           [HttpGet Trivia.api_url;
            ChannelSend ch (Content (Trivia.error_text (status_code resp)))].
         split.
         + rewrite <- app_assoc. simpl. destruct (channel_send e _); reflexivity.
         + split.
           * right. right. exists c, ch, (Content (Trivia.error_text (status_code resp))).
             repeat split; assumption.
           * left. split; [now right | now left].
       - exists (Raise AttributeError), (after_reset e (Trivia.self w)),
           [HttpGet Trivia.api_url].
         split; [reflexivity |]. split; [right; now left |].
         left. split; [now right | now left]. }
  destruct (response_json resp) as [j | x]; simpl.
  2: { exists (Raise x), (after_reset e (Trivia.self w)), [HttpGet Trivia.api_url].
       split; [reflexivity |]. split; [right; now left |].
       left. split; [now right | now left]. }
  destruct (getitem_0 j) as [first | x]; simpl.
  2: { exists (Raise x), (after_reset e (Trivia.self w)), [HttpGet Trivia.api_url].
       split; [reflexivity |]. split; [right; now left |].
       left. split; [now right | now left]. }
  destruct (getitem_str first "fact") as [fact | x]; simpl.
  2: { exists (Raise x), (after_reset e (Trivia.self w)), [HttpGet Trivia.api_url].
       split; [reflexivity |]. split; [right; now left |].
       left. split; [now right | now left]. }
  destruct (get_channel e (TriviaDB.channel_id c)) as [ch |] eqn:Hch; simpl.
  2: { exists (Raise AttributeError), (after_reset e (Trivia.self w)),
         [HttpGet Trivia.api_url].
       split; [reflexivity |]. split; [right; now left |].
       left. split; [now right | now left]. }
  unfold Trivia.bind, Trivia.emit; simpl.
  destruct (channel_send e _) as [x |] eqn:Hd; simpl.
  - exists (Raise x), (after_reset e (Trivia.self w)), (success_events ch fact).
    split; [unfold success_events; rewrite <- app_assoc; reflexivity |].
    split.
    + right. right. exists c, ch, (WithEmbed (Trivia.trivia_embed fact)).
      repeat split; assumption.
    + left. split; [now right |]. right. now exists x.
  - exists (Ok tt), (mark_sent e (after_reset e (Trivia.self w))), (success_events ch fact).
    split; [unfold mark_sent, success_events; rewrite <- app_assoc; reflexivity |].
    split.
    + right. right. exists c, ch, (WithEmbed (Trivia.trivia_embed fact)).
      repeat split; assumption.
    + right. split; [reflexivity |]. split; [reflexivity |]. now exists ch, fact.
Qed.

Lemma mark_sent_fields (e : env) (c : Trivia.cog) :
  Trivia.sent_today (mark_sent e c) = true
  /\ Trivia.sent_date (mark_sent e c) = Some (dt_date (today e))
  /\ Trivia.config (mark_sent e c) = Trivia.config c
  /\ Trivia.database (mark_sent e c) = Trivia.database c.
Proof. unfold mark_sent. simpl. auto. Qed.

(** X5.  What a tick calls.  A tick makes no call at all, or one request
    to the facts API, or that request followed by one message to the
    channel the configured id resolves to; it never answers an
    interaction, and it leaves the cached config and the store as they
    were. *)
Theorem tick_calls (e : env) (w : Trivia.world) :
  exists tr,
    Trivia.trace (snd (Trivia.trivia_loop e w)) = Trivia.trace w ++ tr
    /\ (tr = [] \/ tr = [HttpGet Trivia.api_url]
        \/ exists c ch msg,
             Trivia.config (Trivia.self w) = Some c
             /\ get_channel e (TriviaDB.channel_id c) = Some ch
             /\ tr = [HttpGet Trivia.api_url; ChannelSend ch msg])
    /\ Trivia.config (Trivia.self (snd (Trivia.trivia_loop e w)))
       = Trivia.config (Trivia.self w)
    /\ Trivia.database (Trivia.self (snd (Trivia.trivia_loop e w)))
       = Trivia.database (Trivia.self w).
Proof.
  destruct (tick_outcome e w) as (r & s' & tr & E & Hshape & Hstate).
  exists tr. rewrite E. simpl. split; [reflexivity |]. split; [exact Hshape |].
  destruct (after_reset_fields e (Trivia.self w)) as (_ & Fc & Fd).
  destruct Hstate as [[[Hs | Hs] _] | (_ & Hs & _)]; subst s'.
  - split; reflexivity.
  - split; assumption.
  - destruct (mark_sent_fields e (after_reset e (Trivia.self w))) as (_ & _ & Mc & Md).
    split; congruence.
Qed.

(** ** Commands, one and many *)

(** Every command returns normally, answers the interaction once and
    leaves the dispatch state alone; in the state its guard rejects it
    changes nothing. *)
Lemma exec_frame (c : command) (w : Trivia.world) :
  exists s' text,
    exec c w = (Ok tt, Trivia.mk_world s' (Trivia.trace w ++ [Respond text]))
    /\ Trivia.sent_today s' = Trivia.sent_today (Trivia.self w)
    /\ Trivia.sent_date s' = Trivia.sent_date (Trivia.self w)
    /\ (coherent (Trivia.self w) -> coherent s')
    /\ (Trivia.config (Trivia.self w) = None -> is_setup c = false ->
        s' = Trivia.self w /\ text = Trivia.setup_first)
    /\ (Trivia.config (Trivia.self w) <> None -> is_setup c = true ->
        s' = Trivia.self w /\ text = Trivia.already_setup).
Proof.
  destruct w as [[st sd cf db] tr].
  destruct c as [ch sch | sch | ch]; destruct cf as [r |];
    unfold exec, Trivia.setup, Trivia.schedule, Trivia.channel, Trivia.bind,
      Trivia.gets, Trivia.emit, Trivia.db_insert, Trivia.db_update,
      Trivia.reload_config, Trivia.modify, coherent; simpl;
    eexists; eexists; (split; [reflexivity |]); simpl;
    repeat split; try reflexivity; try discriminate; try congruence;
    intros; try discriminate; try congruence.
Qed.

Lemma steps_cons (s : step) (l : list step) (w w' : Trivia.world) :
  do_step s w = (Ok tt, w') -> steps (s :: l) w = steps l w'.
Proof. intros H. simpl. unfold Trivia.bind. rewrite H. reflexivity. Qed.

Lemma steps_raise (s : step) (l : list step) (w w' : Trivia.world) (x : exn) :
  do_step s w = (Raise x, w') -> steps (s :: l) w = (Raise x, w').
Proof. intros H. simpl. unfold Trivia.bind. rewrite H. reflexivity. Qed.

(** With the send of the date recorded, a tick that observes that date
    leaves the world as it is. *)
Lemma tick_sent_for (D : date) (e : env) (w : Trivia.world) :
  sent_for D (Trivia.self w) -> dt_date (today e) = D ->
  exists r, Trivia.trivia_loop e w = (r, w).
Proof.
  intros (Ht & Hd) HD. subst D.
  destruct (Trivia.config (Trivia.self w)) as [c |] eqn:Hc.
  2: { exists (Ok tt). now apply tick_unset. }
  rewrite (tick_set e w c Hc), (after_reset_same_day e (Trivia.self w) Hd).
  replace (Trivia.mk_world (Trivia.self w) (Trivia.trace w)) with w
    by (destruct w; reflexivity).
  destruct (Trivia._get_schedule (Some c) (today e)) as [ft | x] eqn:Hs.
  - exists (Ok tt). now apply dispatch_sent with (ft := ft).
  - exists (Raise x). now apply dispatch_unparsable.
Qed.

Lemma steps_sent_for (D : date) (l : list step) :
  forall w,
    sent_for D (Trivia.self w) ->
    Forall (fun e => dt_date (today e) = D) (ticks_in l) ->
    exists tr,
      Trivia.trace (snd (steps l w)) = Trivia.trace w ++ tr
      /\ count_events is_success_notice tr = 0%nat.
Proof.
  induction l as [| s l IH]; intros w Hsent Hall.
  - exists []. simpl. now rewrite app_nil_r.
  - destruct s as [e | c].
    + simpl in Hall. inversion Hall as [| ? ? He Hl]; subst.
      destruct (tick_sent_for (dt_date (today e)) e w Hsent eq_refl) as ([[] | x] & E).
      * rewrite (steps_cons (Tick e) l w w E). now apply IH.
      * rewrite (steps_raise (Tick e) l w w x E). exists []. simpl.
        now rewrite app_nil_r.
    + simpl in Hall.
      destruct (exec_frame c w) as (s' & text & E & Ft & Fd & _).
      rewrite (steps_cons (Command c) l w _ E).
      destruct (IH (Trivia.mk_world s' (Trivia.trace w ++ [Respond text])))
        as (tr & Htr & Hn).
      * destruct Hsent as (Ht & Hd). split; simpl; congruence.
      * exact Hall.
      * exists (Respond text :: tr). rewrite Htr. simpl.
        rewrite <- app_assoc. split; [reflexivity |].
        unfold count_events in *. simpl. exact Hn.
Qed.

(** X6.  At most one trivia message per date, whatever happens.  In any
    sequence of ticks and commands run up to the first exception, if all
    the ticks observe the same date, at most one trivia message is
    posted: whatever the cog was at the start, whatever the API and the
    channel answer, and whichever commands change the config in
    between. *)
Theorem at_most_one_trivia_per_date (D : date) (l : list step) (w : Trivia.world) :
  Forall (fun e => dt_date (today e) = D) (ticks_in l) ->
  exists tr,
    Trivia.trace (snd (steps l w)) = Trivia.trace w ++ tr
    /\ (count_events is_success_notice tr <= 1)%nat.
Proof.
  revert w. induction l as [| s l IH]; intros w Hall.
  - exists []. simpl. rewrite app_nil_r. split; [reflexivity |].
    unfold count_events. simpl. lia.
  - destruct s as [e | c].
    + simpl in Hall. inversion Hall as [| ? ? He Hl]; subst.
      destruct (tick_outcome e w) as (r & s' & tr & E & Hshape & Hstate).
      assert (Hle : (count_events is_success_notice tr <= 1)%nat).
      { destruct Hshape as [H | [H | (c & ch & msg & _ & _ & H)]]; subst tr;
          unfold count_events; [simpl; lia | simpl; lia |].
        destruct msg; simpl; lia. }
      destruct Hstate as [[_ [H0 | (x & Hx)]] | (Hr & Hs & _)].
      * destruct r as [[] | x].
        -- rewrite (steps_cons (Tick e) l w _ E).
           destruct (IH (Trivia.mk_world s' (Trivia.trace w ++ tr)) Hl) as (tr' & Htr & Hn).
           exists (tr ++ tr'). rewrite Htr. simpl. rewrite <- app_assoc.
           split; [reflexivity |]. rewrite count_events_app. lia.
        -- rewrite (steps_raise (Tick e) l w _ x E). exists tr. simpl. now split.
      * subst r. rewrite (steps_raise (Tick e) l w _ x E). exists tr. simpl. now split.
      * subst r s'. rewrite (steps_cons (Tick e) l w _ E).
        destruct (steps_sent_for (dt_date (today e)) l
                    (Trivia.mk_world (mark_sent e (after_reset e (Trivia.self w)))
                       (Trivia.trace w ++ tr))) as (tr' & Htr & Hn).
        -- split; reflexivity.
        -- exact Hl.
        -- exists (tr ++ tr'). rewrite Htr. simpl. rewrite <- app_assoc.
           split; [reflexivity |]. rewrite count_events_app. lia.
    + simpl in Hall.
      destruct (exec_frame c w) as (s' & text & E & _).
      rewrite (steps_cons (Command c) l w _ E).
      destruct (IH (Trivia.mk_world s' (Trivia.trace w ++ [Respond text])) Hall)
        as (tr & Htr & Hn).
      exists (Respond text :: tr). rewrite Htr. simpl. rewrite <- app_assoc.
      split; [reflexivity |]. unfold count_events in *. simpl. exact Hn.
Qed.

(** Two ticks of one day at and after the fire time, the schedule moved
    to an earlier hour in between. *)
Lemma at_most_one_trivia_per_date_witness :
  exists tr,
    Trivia.trace
      (snd (steps [Tick (utc_tick (19000 * 1440 + 60)); Command (Schedule "08:30");
                   Tick (utc_tick (19000 * 1440 + 61))] (configured "09:00")))
    = Trivia.trace (configured "09:00") ++ tr
    /\ (count_events is_success_notice tr <= 1)%nat.
Proof.
  apply (at_most_one_trivia_per_date (epoch_ordinal + 19000)
           [Tick (utc_tick (19000 * 1440 + 60)); Command (Schedule "08:30");
            Tick (utc_tick (19000 * 1440 + 61))] (configured "09:00")).
  simpl. constructor; [vm_compute; reflexivity |].
  constructor; [vm_compute; reflexivity |]. constructor.
Defined.

(** X7.  Before setup nothing happens.  With Config unset, any sequence
    of ticks and of schedule and channel commands returns normally and
    leaves the cog as it was: no request to the API, no message to a
    channel, nothing written to the store; each command is answered with
    the setup-first message. *)
Theorem unset_config_is_inert (l : list step) (w : Trivia.world) :
  Trivia.config (Trivia.self w) = None ->
  Forall (fun c => is_setup c = false) (commands_in l) ->
  steps l w
  = (Ok tt,
     Trivia.mk_world (Trivia.self w)
       (Trivia.trace w ++ map (fun _ => Respond Trivia.setup_first) (commands_in l))).
Proof.
  revert w. induction l as [| s l IH]; intros w Hc Hall.
  - simpl. now rewrite world_eta.
  - destruct s as [e | c]; simpl in Hall.
    + rewrite (steps_cons (Tick e) l w w (tick_unset e w Hc)). now apply IH.
    + inversion Hall as [| ? ? Hs Hl]; subst.
      destruct (exec_frame c w) as (s' & text & E & _ & _ & _ & Hg & _).
      destruct (Hg Hc Hs) as (-> & ->).
      rewrite (steps_cons (Command c) l w _ E).
      rewrite (IH (Trivia.mk_world (Trivia.self w)
                     (Trivia.trace w ++ [Respond Trivia.setup_first])) Hc Hl).
      simpl. now rewrite <- app_assoc.
Qed.

(** An unconfigured cog: two ticks, a schedule and a channel command. *)
Lemma unset_config_is_inert_witness :
  steps [Tick (utc_tick (19000 * 1440 + 60)); Command (Schedule "09:00");
         Command (Channel 7); Tick (utc_tick (19000 * 1440 + 61))] unconfigured
  = (Ok tt,
     Trivia.mk_world (Trivia.self unconfigured)
       (Trivia.trace unconfigured
        ++ map (fun _ => Respond Trivia.setup_first)
             (commands_in
                [Tick (utc_tick (19000 * 1440 + 60)); Command (Schedule "09:00");
                 Command (Channel 7); Tick (utc_tick (19000 * 1440 + 61))]))).
Proof.
  apply (unset_config_is_inert
           [Tick (utc_tick (19000 * 1440 + 60)); Command (Schedule "09:00");
            Command (Channel 7); Tick (utc_tick (19000 * 1440 + 61))] unconfigured).
  - reflexivity.
  - simpl. constructor; [reflexivity |]. constructor; [reflexivity |]. constructor.
Defined.

Lemma setups_rejected (cs : list command) :
  forall w,
    Trivia.config (Trivia.self w) <> None ->
    Forall (fun c => is_setup c = true) cs ->
    steps (map Command cs) w
    = (Ok tt,
       Trivia.mk_world (Trivia.self w)
         (Trivia.trace w ++ map (fun _ => Respond Trivia.already_setup) cs)).
Proof.
  induction cs as [| c cs IH]; intros w Hc Hall.
  - simpl. now rewrite world_eta.
  - inversion Hall as [| ? ? Hs Hl]; subst.
    destruct (exec_frame c w) as (s' & text & E & _ & _ & _ & _ & Hg).
    destruct (Hg Hc Hs) as (-> & ->).
    change (map Command (c :: cs)) with (Command c :: map Command cs).
    rewrite (steps_cons (Command c) (map Command cs) w _ E).
    rewrite (IH (Trivia.mk_world (Trivia.self w)
                   (Trivia.trace w ++ [Respond Trivia.already_setup])) Hc Hl).
    simpl. now rewrite <- app_assoc.
Qed.

(** X8.  The first setup wins.  On a cog with Config unset and an empty
    store, a setup command stores its channel and schedule; every setup
    command after it, whatever its arguments, is answered with the
    already-setup message and changes nothing. *)
Theorem first_setup_wins (w : Trivia.world) (ch : channel_t) (sch : string)
    (cs : list command) :
  Trivia.config (Trivia.self w) = None ->
  Trivia.database (Trivia.self w) = None ->
  Forall (fun c => is_setup c = true) cs ->
  exists s',
    steps (Command (Setup ch sch) :: map Command cs) w
    = (Ok tt,
       Trivia.mk_world s'
         (Trivia.trace w ++ Respond "Trivia setup"
            :: map (fun _ => Respond Trivia.already_setup) cs))
    /\ Trivia.config s' = Some (TriviaDB.mk_row ch sch)
    /\ Trivia.database s' = Some (TriviaDB.mk_row ch sch)
    /\ Trivia.sent_today s' = Trivia.sent_today (Trivia.self w)
    /\ Trivia.sent_date s' = Trivia.sent_date (Trivia.self w).
Proof.
  intros Hc Hd Hall. destruct w as [[st sd cf db] tr]. simpl in Hc, Hd. subst cf db.
  exists (Trivia.mk_cog st sd (Some (TriviaDB.mk_row ch sch)) (Some (TriviaDB.mk_row ch sch))).
  split; [| repeat split].
  assert (E : do_step (Command (Setup ch sch))
                (Trivia.mk_world (Trivia.mk_cog st sd None None) tr)
              = (Ok tt,
                 Trivia.mk_world
                   (Trivia.mk_cog st sd (Some (TriviaDB.mk_row ch sch))
                      (Some (TriviaDB.mk_row ch sch)))
                   (tr ++ [Respond "Trivia setup"]))) by reflexivity.
  rewrite (steps_cons _ _ _ _ E).
  rewrite setups_rejected; [| discriminate | exact Hall].
  simpl. now rewrite <- app_assoc.
Qed.

(** A setup with a schedule that is no time, then two more setups. *)
Lemma first_setup_wins_witness :
  exists s',
    steps (Command (Setup 5 "24:00") :: map Command [Setup 6 "09:00"; Setup 7 "10:00"])
      unconfigured
    = (Ok tt,
       Trivia.mk_world s'
         (Trivia.trace unconfigured ++ Respond "Trivia setup"
            :: map (fun _ => Respond Trivia.already_setup)
                 [Setup 6 "09:00"; Setup 7 "10:00"]))
    /\ Trivia.config s' = Some (TriviaDB.mk_row 5 "24:00")
    /\ Trivia.database s' = Some (TriviaDB.mk_row 5 "24:00")
    /\ Trivia.sent_today s' = Trivia.sent_today (Trivia.self unconfigured)
    /\ Trivia.sent_date s' = Trivia.sent_date (Trivia.self unconfigured).
Proof.
  apply (first_setup_wins unconfigured 5 "24:00" [Setup 6 "09:00"; Setup 7 "10:00"]).
  - reflexivity.
  - reflexivity.
  - constructor; [reflexivity |]. constructor; [reflexivity |]. constructor.
Defined.

(** ** What is recorded, in every state the cog reaches *)

Lemma count_events_grows (p : event -> bool) (a b : list event) :
  (count_events p a <= count_events p (a ++ b))%nat.
Proof. rewrite count_events_app. lia. Qed.

(** X10.  A recorded send was posted.  In every state the cog reaches
    from a load, through ticks and commands that return or raise: if
    [sent_today] is set then [sent_date] holds a date, and if [sent_date]
    holds a date then a trivia message was posted to a channel. *)
Theorem recorded_send_was_posted (w : Trivia.world) :
  reachable w ->
  (Trivia.sent_today (Trivia.self w) = true -> Trivia.sent_date (Trivia.self w) <> None)
  /\ (Trivia.sent_date (Trivia.self w) <> None ->
      (1 <= count_events is_success_notice (Trivia.trace w))%nat).
Proof.
  induction 1 as [d | s w Hw (IH1 & IH2)].
  - simpl. split; [discriminate | congruence].
  - destruct s as [e | c]; simpl.
    + destruct (tick_outcome e w) as (r & s' & tr & E & _ & Hstate).
      rewrite E. simpl.
      pose proof (count_events_grows is_success_notice (Trivia.trace w) tr) as Hg.
      destruct (after_reset_fields e (Trivia.self w)) as (Fd & _).
      destruct Hstate as [[[Hs | Hs] _] | (_ & Hs & ch & fact & Htr)]; subst s'.
      * split; [exact IH1 |]. intros H. specialize (IH2 H). lia.
      * rewrite Fd. split.
        -- intros Ht. apply IH1. unfold after_reset in Ht.
           destruct (Trivia.date_ne _ _); [discriminate Ht | exact Ht].
        -- intros H. specialize (IH2 H). lia.
      * split; [discriminate |]. intros _. subst tr.
        rewrite count_events_app. unfold count_events at 2. simpl. lia.
    + destruct (exec_frame c w) as (s' & text & E & Ft & Fd & _).
      rewrite E. simpl. rewrite Ft, Fd.
      pose proof (count_events_grows is_success_notice (Trivia.trace w) [Respond text]) as Hg.
      split; [exact IH1 |]. intros H. specialize (IH2 H). lia.
Qed.

(** The state after the tick of 01:00 UTC on a cog loaded with 09:00. *)
Lemma recorded_send_was_posted_witness :
  (Trivia.sent_today
     (Trivia.self (snd (do_step (Tick (utc_tick (19000 * 1440 + 60))) (configured "09:00"))))
   = true ->
   Trivia.sent_date
     (Trivia.self (snd (do_step (Tick (utc_tick (19000 * 1440 + 60))) (configured "09:00"))))
   <> None)
  /\ (Trivia.sent_date
        (Trivia.self (snd (do_step (Tick (utc_tick (19000 * 1440 + 60))) (configured "09:00"))))
      <> None ->
      (1 <= count_events is_success_notice
              (Trivia.trace
                 (snd (do_step (Tick (utc_tick (19000 * 1440 + 60))) (configured "09:00")))))%nat).
Proof.
  apply (recorded_send_was_posted
           (snd (do_step (Tick (utc_tick (19000 * 1440 + 60))) (configured "09:00")))).
  apply (reach_step (Tick (utc_tick (19000 * 1440 + 60))) (configured "09:00")).
  exact (reach_load (Some (TriviaDB.mk_row 1 "09:00"))).
Defined.

(** X11.  The cached config is the stored row.  In every state the cog
    reaches from a load, [self.config] equals what the store holds: the
    loop never reads a config that differs from the stored one. *)
Theorem cache_matches_store (w : Trivia.world) :
  reachable w -> Trivia.config (Trivia.self w) = Trivia.database (Trivia.self w).
Proof.
  induction 1 as [d | s w Hw IH].
  - reflexivity.
  - destruct s as [e | c]; simpl.
    + destruct (tick_outcome e w) as (r & s' & tr & E & _ & Hstate).
      rewrite E. simpl.
      destruct (after_reset_fields e (Trivia.self w)) as (_ & Fc & Fd).
      destruct Hstate as [[[Hs | Hs] _] | (_ & Hs & _)]; subst s'.
      * exact IH.
      * congruence.
      * destruct (mark_sent_fields e (after_reset e (Trivia.self w))) as (_ & _ & Mc & Md).
        congruence.
    + destruct (exec_frame c w) as (s' & text & E & _ & _ & Hco & _).
      rewrite E. simpl. exact (Hco IH).
Qed.

(** A setup, a tick and a channel change on a cog loaded from an empty
    store. *)
Lemma cache_matches_store_witness :
  Trivia.config
    (Trivia.self
       (snd (do_step (Command (Channel 7))
               (snd (do_step (Tick (utc_tick (19000 * 1440 + 60)))
                       (snd (do_step (Command (Setup 5 "09:00")) unconfigured)))))))
  = Trivia.database
      (Trivia.self
         (snd (do_step (Command (Channel 7))
                 (snd (do_step (Tick (utc_tick (19000 * 1440 + 60)))
                         (snd (do_step (Command (Setup 5 "09:00")) unconfigured))))))).
Proof.
  apply (cache_matches_store
           (snd (do_step (Command (Channel 7))
                   (snd (do_step (Tick (utc_tick (19000 * 1440 + 60)))
                           (snd (do_step (Command (Setup 5 "09:00")) unconfigured))))))).
  apply (reach_step (Command (Channel 7))
           (snd (do_step (Tick (utc_tick (19000 * 1440 + 60)))
                   (snd (do_step (Command (Setup 5 "09:00")) unconfigured))))).
  apply (reach_step (Tick (utc_tick (19000 * 1440 + 60)))
           (snd (do_step (Command (Setup 5 "09:00")) unconfigured))).
  apply (reach_step (Command (Setup 5 "09:00")) unconfigured).
  exact (reach_load None).
Defined.

(** ** From the fire time back to the schedule *)

(** X12.  Round trip.  Whenever [_get_schedule] returns a time for a
    stored config, on any date, that time has no seconds and no
    microseconds, and eight hours later (modulo a day) it is the time
    that [strptime] reads from the stored text. *)
Theorem schedule_recovered_from_fire_time (c : TriviaDB.row) (now : datetime) (t : time) :
  Trivia._get_schedule (Some c) now = Ok t ->
  strptime (TriviaDB.schedule c)
  = Ok (mk_datetime strptime_default_date
          (mk_time ((hour t + 8) mod 24) (minute t) 0 0))
  /\ 0 <= hour t <= 23 /\ 0 <= minute t <= 59
  /\ second t = 0 /\ microsecond t = 0.
Proof.
  intros H.
  destruct (get_schedule_cases c now) as [E | [E | (h & m & Hh & Hm & Hs & E)]];
    rewrite E in H; try discriminate H.
  inversion H; subst t; clear H. unfold fire_time. cbn [hour minute second microsecond].
  replace (((h - 8) mod 24 + 8) mod 24) with h by (Z.div_mod_to_equations; lia).
  split; [now apply strptime_spells |]. split; [Z.div_mod_to_equations; lia |].
  split; [lia |]. split; reflexivity.
Qed.

(** The stored text 09:00 on day 738000: the fire time is 01:00. *)
Lemma schedule_recovered_from_fire_time_witness :
  strptime (TriviaDB.schedule (TriviaDB.mk_row 1 "09:00"))
  = Ok (mk_datetime strptime_default_date
          (mk_time ((hour (mk_time 1 0 0 0) + 8) mod 24) (minute (mk_time 1 0 0 0)) 0 0))
  /\ 0 <= hour (mk_time 1 0 0 0) <= 23 /\ 0 <= minute (mk_time 1 0 0 0) <= 59
  /\ second (mk_time 1 0 0 0) = 0 /\ microsecond (mk_time 1 0 0 0) = 0.
Proof.
  apply (schedule_recovered_from_fire_time (TriviaDB.mk_row 1 "09:00")
           (mk_datetime 738000 (mk_time 12 30 15 0)) (mk_time 1 0 0 0)).
  vm_compute. reflexivity.
Defined.

(** ** Restarts and changes of the config *)

(** X13.  A restart forgets the send.  After the trivia of a date has
    been sent, a later tick of that date sends nothing; but once the
    process has started anew on the same store ([__init__] and
    [cog_load]), the same tick fetches and posts a second trivia for
    that date: the record of the send lives in the cog only. *)
Theorem restart_sends_again (id h m : Z) (w : Trivia.world) (e e' : env)
    (ch : channel_t) (fact fact' : json) :
  0 <= h <= 23 -> 0 <= m <= 59 ->
  Trivia.config (Trivia.self w) = Some (TriviaDB.mk_row id (hhmm h m)) ->
  Trivia.database (Trivia.self w) = Some (TriviaDB.mk_row id (hhmm h m)) ->
  pending (Trivia.self w) e ->
  after_min_date (today e) -> after_min_date (today e') ->
  dt_date (today e') = dt_date (today e) ->
  at_or_after_fire (fire_time h m) e -> at_or_after_fire (fire_time h m) e' ->
  fetch_succeeds e fact -> fetch_succeeds e' fact' ->
  delivers e id ch -> delivers e' id ch ->
  exists w1,
    Trivia.trivia_loop e w = (Ok tt, w1)
    /\ Trivia.trace w1 = Trivia.trace w ++ success_events ch fact
    /\ Trivia.trivia_loop e' w1 = (Ok tt, w1)
    /\ exists w2,
         Trivia.trivia_loop e' (restart w1) = (Ok tt, w2)
         /\ Trivia.trace w2 = Trivia.trace w1 ++ success_events ch fact'.
Proof.
  intros Hh Hm Hc Hdb Hp Hd Hd' Hsame Ha Ha' Hf Hf' Hdel Hdel'.
  pose proof (get_schedule_hhmm id h m (today e) Hh Hm Hd) as Hs.
  pose proof (get_schedule_hhmm id h m (today e') Hh Hm Hd') as Hs'.
  fold (fire_time h m) in Hs, Hs'.
  destruct (after_reset_fields e (Trivia.self w)) as (_ & Fc & Fd).
  eexists. split.
  { exact (tick_fire_success e w _ _ ch fact Hc Hs Ha Hp Hf Hdel). }
  split; [reflexivity |]. split.
  - set (w1 := Trivia.mk_world _ _).
    assert (Hc1 : Trivia.config (Trivia.self w1) = Some (TriviaDB.mk_row id (hhmm h m)))
      by (subst w1; simpl; congruence).
    rewrite (tick_quiet e' w1 _ _ Hc1 Hs').
    + rewrite after_reset_same_day; [reflexivity |].
      subst w1. simpl. now rewrite Hsame.
    + right. rewrite after_reset_same_day; [reflexivity |].
      subst w1. simpl. now rewrite Hsame.
  - eexists. split.
    + apply (tick_fire_success e' _ (TriviaDB.mk_row id (hhmm h m)) (fire_time h m) ch fact').
      * unfold restart. simpl. rewrite Fd. exact Hdb.
      * exact Hs'.
      * exact Ha'.
      * left. reflexivity.
      * exact Hf'.
      * exact Hdel'.
    + reflexivity.
Qed.

(** 01:00 and 01:05 UTC of one day, schedule 09:00. *)
Lemma restart_sends_again_witness :
  exists w1,
    Trivia.trivia_loop (utc_tick (19000 * 1440 + 60)) (configured "09:00") = (Ok tt, w1)
    /\ Trivia.trace w1
       = Trivia.trace (configured "09:00") ++ success_events 1 (JStr "Bees can fly.")
    /\ Trivia.trivia_loop (utc_tick (19000 * 1440 + 65)) w1 = (Ok tt, w1)
    /\ exists w2,
         Trivia.trivia_loop (utc_tick (19000 * 1440 + 65)) (restart w1) = (Ok tt, w2)
         /\ Trivia.trace w2 = Trivia.trace w1 ++ success_events 1 (JStr "Bees can fly.").
Proof.
  apply (restart_sends_again 1 9 0 (configured "09:00")
           (utc_tick (19000 * 1440 + 60)) (utc_tick (19000 * 1440 + 65))
           1 (JStr "Bees can fly.") (JStr "Bees can fly.")).
  - lia.
  - lia.
  - reflexivity.
  - reflexivity.
  - left. reflexivity.
  - vm_compute. split; [reflexivity | discriminate].
  - vm_compute. split; [reflexivity | discriminate].
  - vm_compute. reflexivity.
  - vm_compute. reflexivity.
  - vm_compute. reflexivity.
  - exists [], [("fact", JStr "Bees can fly.")]. split; reflexivity.
  - exists [], [("fact", JStr "Bees can fly.")]. split; reflexivity.
  - split; [reflexivity | intros msg; reflexivity].
  - split; [reflexivity | intros msg; reflexivity].
Defined.

(** X14.  A change takes effect at the next tick.  With Config set and
    the send of the date pending, the first tick after a schedule
    command is gated by the new schedule, and the first tick after a
    channel command posts to the channel the new id resolves to; no
    restart is needed. *)
Theorem changes_take_effect (w : Trivia.world) (c : TriviaDB.row) (e : env)
    (fact : json) :
  Trivia.config (Trivia.self w) = Some c ->
  Trivia.database (Trivia.self w) = Some c ->
  after_min_date (today e) ->
  pending (Trivia.self w) e ->
  fetch_succeeds e fact ->
  (forall h m chan,
      0 <= h <= 23 -> 0 <= m <= 59 ->
      at_or_after_fire (fire_time h m) e ->
      delivers e (TriviaDB.channel_id c) chan ->
      exists w',
        steps [Command (Schedule (hhmm h m)); Tick e] w = (Ok tt, w')
        /\ Trivia.trace w'
           = Trivia.trace w
             ++ Respond ("Trivia session scheduled at " ++ hhmm h m)%string
                :: success_events chan fact)
  /\ (forall h m ch' chan,
         0 <= h <= 23 -> 0 <= m <= 59 ->
         TriviaDB.schedule c = hhmm h m ->
         at_or_after_fire (fire_time h m) e ->
         delivers e ch' chan ->
         exists w',
           steps [Command (Channel ch'); Tick e] w = (Ok tt, w')
           /\ Trivia.trace w'
              = Trivia.trace w ++ Respond "Trivia channel set" :: success_events chan fact).
Proof.
  intros Hc Hdb Hd Hp Hf.
  destruct w as [[st sd cf db] tr]. simpl in Hc, Hdb. subst cf db.
  split.
  - intros h m chan Hh Hm Ha Hdel.
    set (c' := TriviaDB.mk_row (TriviaDB.channel_id c) (hhmm h m)).
    set (w1 := Trivia.mk_world (Trivia.mk_cog st sd (Some c') (Some c'))
                 (tr ++ [Respond ("Trivia session scheduled at " ++ hhmm h m)%string])).
    assert (E : do_step (Command (Schedule (hhmm h m)))
                  (Trivia.mk_world (Trivia.mk_cog st sd (Some c) (Some c)) tr)
                = (Ok tt, w1)) by reflexivity.
    rewrite (steps_cons _ _ _ _ E).
    pose proof (get_schedule_hhmm (TriviaDB.channel_id c) h m (today e) Hh Hm Hd) as Hs.
    fold (fire_time h m) in Hs.
    assert (Ht : Trivia.trivia_loop e w1
                 = (Ok tt, Trivia.mk_world (mark_sent e (after_reset e (Trivia.self w1)))
                             (Trivia.trace w1 ++ success_events chan fact))).
    { apply (tick_fire_success e w1 c' (fire_time h m) chan fact); try assumption.
      reflexivity. }
    rewrite (steps_cons (Tick e) [] w1 _ Ht). eexists. split; [reflexivity |].
    simpl. now rewrite <- app_assoc.
  - intros h m ch' chan Hh Hm Hsch Ha Hdel.
    set (c' := TriviaDB.mk_row ch' (TriviaDB.schedule c)).
    set (w1 := Trivia.mk_world (Trivia.mk_cog st sd (Some c') (Some c'))
                 (tr ++ [Respond "Trivia channel set"])).
    assert (E : do_step (Command (Channel ch'))
                  (Trivia.mk_world (Trivia.mk_cog st sd (Some c) (Some c)) tr)
                = (Ok tt, w1)) by reflexivity.
    rewrite (steps_cons _ _ _ _ E).
    pose proof (get_schedule_hhmm ch' h m (today e) Hh Hm Hd) as Hs.
    fold (fire_time h m) in Hs. rewrite <- Hsch in Hs. fold c' in Hs.
    assert (Ht : Trivia.trivia_loop e w1
                 = (Ok tt, Trivia.mk_world (mark_sent e (after_reset e (Trivia.self w1)))
                             (Trivia.trace w1 ++ success_events chan fact))).
    { apply (tick_fire_success e w1 c' (fire_time h m) chan fact); try assumption.
      reflexivity. }
    rewrite (steps_cons (Tick e) [] w1 _ Ht). eexists. split; [reflexivity |].
    simpl. now rewrite <- app_assoc.
Qed.

(** 17:00 UTC, schedule 09:00 on channel 1: the schedule moved to 00:30,
    or the channel to 7. *)
Lemma changes_take_effect_witness :
  (exists w',
      steps [Command (Schedule (hhmm 0 30)); Tick (utc_tick (19000 * 1440 + 1020))]
        (configured "09:00") = (Ok tt, w')
      /\ Trivia.trace w'
         = Trivia.trace (configured "09:00")
           ++ Respond ("Trivia session scheduled at " ++ hhmm 0 30)%string
              :: success_events 1 (JStr "Bees can fly."))
  /\ (exists w',
         steps [Command (Channel 7); Tick (utc_tick (19000 * 1440 + 1020))]
           (configured "09:00") = (Ok tt, w')
         /\ Trivia.trace w'
            = Trivia.trace (configured "09:00")
              ++ Respond "Trivia channel set" :: success_events 7 (JStr "Bees can fly.")).
Proof.
  assert (Hd : after_min_date (today (utc_tick (19000 * 1440 + 1020))))
    by (vm_compute; split; [reflexivity | discriminate]).
  assert (Hf : fetch_succeeds (utc_tick (19000 * 1440 + 1020)) (JStr "Bees can fly."))
    by (exists [], [("fact", JStr "Bees can fly.")]; split; reflexivity).
  destruct (changes_take_effect (configured "09:00") (TriviaDB.mk_row 1 "09:00")
              (utc_tick (19000 * 1440 + 1020)) (JStr "Bees can fly.")
              eq_refl eq_refl Hd (or_introl eq_refl) Hf) as [P1 P2].
  split.
  - apply (P1 0 30 1).
    + lia.
    + lia.
    + vm_compute. reflexivity.
    + split; [reflexivity | intros msg; reflexivity].
  - apply (P2 9 0 7 7).
    + lia.
    + lia.
    + reflexivity.
    + vm_compute. reflexivity.
    + split; [reflexivity | intros msg; reflexivity].
Defined.

(** X15.  An unreadable schedule fails every tick.  With Config set, a
    schedule command whose text [strptime] refuses is acknowledged like
    any other; from then on every tick, on any date and at any time,
    raises the exception of [strptime] before any request to the API or
    message to a channel. *)
Theorem unreadable_schedule_fails_every_tick (w : Trivia.world) (c : TriviaDB.row)
    (sch : string) (x : exn) :
  Trivia.config (Trivia.self w) = Some c ->
  Trivia.database (Trivia.self w) = Some c ->
  strptime sch = Raise x ->
  exists w1,
    Trivia.schedule sch w = (Ok tt, w1)
    /\ Trivia.trace w1
       = Trivia.trace w ++ [Respond ("Trivia session scheduled at " ++ sch)%string]
    /\ forall e,
         exists s',
           Trivia.trivia_loop e w1 = (Raise x, Trivia.mk_world s' (Trivia.trace w1)).
Proof.
  intros Hc Hdb Hno.
  destruct w as [[st sd cf db] tr]. simpl in Hc, Hdb. subst cf db.
  set (c' := TriviaDB.mk_row (TriviaDB.channel_id c) sch).
  set (w1 := Trivia.mk_world (Trivia.mk_cog st sd (Some c') (Some c'))
               (tr ++ [Respond ("Trivia session scheduled at " ++ sch)%string])).
  exists w1.
  split; [reflexivity |]. split; [reflexivity |].
  intros e. exists (after_reset e (Trivia.self w1)).
  rewrite (tick_set e w1 c' eq_refl).
  apply dispatch_unparsable.
  unfold Trivia._get_schedule. cbn [TriviaDB.schedule c'].
  now rewrite Hno.
Qed.

(** The schedule set to the text noon. *)
Lemma unreadable_schedule_fails_every_tick_witness :
  exists w1,
    Trivia.schedule "noon" (configured "09:00") = (Ok tt, w1)
    /\ Trivia.trace w1
       = Trivia.trace (configured "09:00")
         ++ [Respond ("Trivia session scheduled at " ++ "noon")%string]
    /\ forall e,
         exists s',
           Trivia.trivia_loop e w1
           = (Raise ValueError, Trivia.mk_world s' (Trivia.trace w1)).
Proof.
  apply (unreadable_schedule_fails_every_tick (configured "09:00")
           (TriviaDB.mk_row 1 "09:00") "noon" ValueError).
  - reflexivity.
  - reflexivity.
  - vm_compute. reflexivity.
Defined.

(** ** The first day of the calendar *)

(** X16.  The lower bound of [date].  On 0001-01-01 the subtraction of
    eight hours leaves the range of [date] exactly for the schedules
    before 08:00: for those [_get_schedule] raises [OverflowError], for
    the others it returns the fire time as on any later day. *)
Theorem first_day_overflow (id h m : Z) (t0 : time) :
  0 <= h <= 23 -> 0 <= m <= 59 ->
  Trivia._get_schedule (Some (TriviaDB.mk_row id (hhmm h m))) (mk_datetime 1 t0)
  = if h <? 8 then Raise OverflowError else Ok (fire_time h m).
Proof.
  intros Hh Hm. unfold Trivia._get_schedule.
  cbn [TriviaDB.schedule]. rewrite strptime_hhmm by assumption.
  cbn [dt_time].
  unfold datetime_sub. rewrite timedelta_8h_neg.
  unfold datetime_add, datetime_combine.
  cbn [dt_date dt_time hour minute second microsecond].
  rewrite timedelta_new_time by assumption.
  unfold timedelta_add.
  cbn [td_days td_seconds td_microseconds].
  change (0 + 0) with 0. rewrite timedelta_new_secs.
  cbn [td_days td_seconds td_microseconds].
  set (s := h * 3600 + m * 60 + 57600).
  assert (Hs : s mod 86400 = ((h - 8) mod 24) * 3600 + m * 60)
    by (subst s; Z.div_mod_to_equations; lia).
  assert (Hq : 1 + -1 + s / 86400 = if h <? 8 then 0 else 1).
  { destruct (Z.ltb_spec h 8); subst s; Z.div_mod_to_equations; lia. }
  rewrite Hs, Hq.
  assert (Hr : 0 <= (h - 8) mod 24 <= 23) by (Z.div_mod_to_equations; lia).
  unfold fire_time.
  set (h' := (h - 8) mod 24) in *.
  replace ((h' * 3600 + m * 60) / 3600) with h' by (Z.div_mod_to_equations; lia).
  replace ((h' * 3600 + m * 60) mod 3600) with (m * 60) by (Z.div_mod_to_equations; lia).
  replace (m * 60 / 60) with m by (Z.div_mod_to_equations; lia).
  replace ((m * 60) mod 60) with 0 by (Z.div_mod_to_equations; lia).
  destruct (h <? 8); reflexivity.
Qed.

(** 07:59 and 08:00 on 0001-01-01. *)
Lemma first_day_overflow_witness :
  Trivia._get_schedule (Some (TriviaDB.mk_row 1 (hhmm 7 59)))
    (mk_datetime 1 (mk_time 12 0 0 0))
  = (if 7 <? 8 then Raise OverflowError else Ok (fire_time 7 59))
  /\ Trivia._get_schedule (Some (TriviaDB.mk_row 1 (hhmm 8 0)))
       (mk_datetime 1 (mk_time 12 0 0 0))
     = (if 8 <? 8 then Raise OverflowError else Ok (fire_time 8 0)).
Proof.
  split.
  - apply (first_day_overflow 1 7 59 (mk_time 12 0 0 0)); lia.
  - apply (first_day_overflow 1 8 0 (mk_time 12 0 0 0)); lia.
Defined.
